(** * Sprinkler controller: schedules, zones, persistence and the run loop

    A shallow embedding of [sprinkler_controller.py] and of the request
    handlers of [api_server.py], with the properties of their
    specification stated and proved over it.

    Conventions of the embedding.
    - Python integers are [Z]; strings are [string] (sequences of
      one-byte characters, so the digits a time string can hold are the
      ASCII digits).
    - [datetime.time] values are records of an hour and a minute; the
      library keeps them within 0..23 and 0..59, which is [valid_time].
    - A raised exception is [None], or the error constructor of the
      operation at hand.
    - The GPIO driver is a map from pin numbers to output levels; its
      calls always succeed.
    - The schedule file holds a document, is missing, or holds text
      that [json.load] rejects; writing it always succeeds. *)

From Stdlib Require Import ZArith List String Ascii Bool Lia.
From stdpp Require Import base option list gmap strings.

Local Open Scope string_scope.
Local Open Scope Z_scope.

(** ** Times and instants *)

Record dt_time := mk_time { hour : Z; minute : Z }.

(** What [datetime.now()] gives the code: a weekday (0 = Monday) and a
    time of day. *)
Record datetime := mk_datetime { weekday : Z; now_time : dt_time }.

Definition valid_time (t : dt_time) : Prop :=
  0 <= hour t < 24 /\ 0 <= minute t < 60.

Definition valid_datetime (d : datetime) : Prop :=
  0 <= weekday d < 7 /\ valid_time (now_time d).

Definition dt_time_eqb (a b : dt_time) : bool :=
  (hour a =? hour b) && (minute a =? minute b).

(** ** [strptime] and [strftime] for the format [%H:%M] *)

Definition digit (c : ascii) : option Z :=
  let n := Z.of_N (N_of_ascii c) in
  if (48 <=? n) && (n <=? 57) then Some (n - 48) else None.

Definition digit_char (d : Z) : ascii :=
  ascii_of_N (Z.to_N (48 + d)).

Definition any_digit (_ : Z) : bool := true.
Definition in_range (lo hi d : Z) : bool := (lo <=? d) && (d <=? hi).

(** One alternative of a regular expression: it consumes a prefix of
    the input and yields the number it read. *)
Definition branch := list ascii -> option (Z * list ascii).

(** A character class over digits, [[lo-hi]] or [\d]. *)
Definition one_digit (p : Z -> bool) : branch := fun s =>
  match s with
  | c :: rest =>
      match digit c with
      | Some d => if p d then Some (d, rest) else None
      | None => None
      end
  | [] => None
  end.

(** Two classes in a row, read as a two-digit number. *)
Definition two_digits (p1 p2 : Z -> bool) : branch := fun s =>
  match one_digit p1 s with
  | Some (d1, rest) =>
      match one_digit p2 rest with
      | Some (d2, rest') => Some (10 * d1 + d2, rest')
      | None => None
      end
  | None => None
  end.

(** Alternation with backtracking: the alternatives are tried from left
    to right, and one is kept only if the rest of the expression, [k],
    matches after it. *)
Fixpoint alt {A} (bs : list branch) (s : list ascii)
    (k : Z -> list ascii -> option A) : option A :=
  match bs with
  | [] => None
  | b :: bs' =>
      match b s with
      | Some (v, rest) =>
          match k v rest with
          | Some r => Some r
          | None => alt bs' s k
          end
      | None => alt bs' s k
      end
  end.

Definition colon (s : list ascii) : option (list ascii) :=
  match s with
  | c :: rest => if Ascii.eqb c ":" then Some rest else None
  | [] => None
  end.

(** The directives of [_strptime]: [%H] is [2[0-3]|[0-1]\d|\d] and
    [%M] is [[0-5]\d|\d]. *)
Definition directive_H : list branch :=
  [ two_digits (in_range 2 2) (in_range 0 3);
    two_digits (in_range 0 1) any_digit;
    one_digit any_digit ].

Definition directive_M : list branch :=
  [ two_digits (in_range 0 5) any_digit;
    one_digit any_digit ].

(** [format_regex.match(data_string)]: the first match in backtracking
    order, with what it left unread. *)
Definition format_regex_match (s : list ascii) : option (Z * Z * list ascii) :=
  alt directive_H s (fun h s1 =>
    match colon s1 with
    | Some s2 => alt directive_M s2 (fun m s3 => Some (h, m, s3))
    | None => None
    end).

(** [datetime.strptime(s, "%H:%M").time()]; [None] is the [ValueError]
    of a string that does not match or has unconverted data left. *)
Definition strptime_HM (s : string) : option dt_time :=
  match format_regex_match (list_ascii_of_string s) with
  | Some (h, m, []) => Some (mk_time h m)
  | _ => None
  end.

Definition two_chars (n : Z) : list ascii :=
  [digit_char (n / 10); digit_char (n mod 10)].

(** [t.strftime("%H:%M")]: both numbers zero-padded to two digits. *)
Definition strftime_HM (t : dt_time) : string :=
  string_of_list_ascii (two_chars (hour t) ++ ":"%char :: two_chars (minute t)).

(** ** SprinklerSchedule *)

Record SprinklerSchedule := mk_schedule {
  days : list Z;
  start_time : dt_time;
  duration_minutes : Z;
  enabled : bool
}.

(** [SprinklerSchedule.__init__]: the only statement that can raise is
    the [strptime] of the start time. *)
Definition new_schedule (ds : list Z) (st : string) (dur : Z) (en : bool)
    : option SprinklerSchedule :=
  match strptime_HM st with
  | Some t => Some (mk_schedule ds t dur en)
  | None => None
  end.

Definition should_run_today (s : SprinklerSchedule) (now : datetime) : bool :=
  existsb (Z.eqb (weekday now)) (days s).

Definition is_start_time (s : SprinklerSchedule) (now : datetime) : bool :=
  let now_minutes := hour (now_time now) * 60 + minute (now_time now) in
  let start_minutes := hour (start_time s) * 60 + minute (start_time s) in
  now_minutes =? start_minutes.

(** The trigger test of [check_and_run]:
    [should_run_today() and is_start_time()], with the clock read once. *)
Definition matches (s : SprinklerSchedule) (now : datetime) : bool :=
  should_run_today s now && is_start_time s now.

(** ** Request models of the API

    The models [ScheduleModel], [ZoneModel] and [ManualRunModel] as the
    handlers receive them, with the constraints of their [Field]s. *)

Record ScheduleModel := mk_ScheduleModel {
  sm_days : list Z;
  sm_start_time : string;
  sm_duration_minutes : Z;
  sm_enabled : bool
}.

Record ZoneModel := mk_ZoneModel {
  zm_name : string;
  zm_gpio_pin : Z;
  zm_schedule : ScheduleModel
}.

Record ManualRunModel := mk_ManualRunModel { mr_duration_minutes : Z }.

(** The hour of [^([0-1]?[0-9]|2[0-3]):[0-5][0-9]$]; the optional class
    is greedy, so it is tried present before absent. *)
Definition pattern_hour : list branch :=
  [ two_digits (in_range 0 1) any_digit;
    one_digit any_digit;
    two_digits (in_range 2 2) (in_range 0 3) ].

(** The [pattern] of [start_time], anchored at both ends. *)
Definition start_time_pattern (s : string) : bool :=
  match
    alt pattern_hour (list_ascii_of_string s) (fun _ s1 =>
      match colon s1 with
      | Some s2 =>
          match two_digits (in_range 0 5) any_digit s2 with
          | Some (_, []) => Some tt
          | _ => None
          end
      | None => None
      end)
  with
  | Some _ => true
  | None => false
  end.

Definition len {A} (l : list A) : Z := Z.of_nat (length l).

(** [min_items=1, max_items=7], the pattern, [gt=0, le=180]. *)
Definition ScheduleModel_valid (m : ScheduleModel) : bool :=
  (1 <=? len (sm_days m)) && (len (sm_days m) <=? 7)
  && start_time_pattern (sm_start_time m)
  && (0 <? sm_duration_minutes m) && (sm_duration_minutes m <=? 180).

(** [min_length=1, max_length=50], [ge=0, le=27], and the schedule. *)
Definition ZoneModel_valid (m : ZoneModel) : bool :=
  (1 <=? Z.of_nat (String.length (zm_name m)))
  && (Z.of_nat (String.length (zm_name m)) <=? 50)
  && (0 <=? zm_gpio_pin m) && (zm_gpio_pin m <=? 27)
  && ScheduleModel_valid (zm_schedule m).

Definition ManualRunModel_valid (m : ManualRunModel) : bool :=
  (0 <? mr_duration_minutes m) && (mr_duration_minutes m <=? 180).

(** A schedule built from a request body: the model is validated first,
    and only a valid one reaches [SprinklerSchedule]. *)
Inductive built (A : Type) :=
  | Built (a : A)
  | ValidationError
  | ValueError.
Arguments Built {A} a.
Arguments ValidationError {A}.
Arguments ValueError {A}.

Definition schedule_of_model (m : ScheduleModel) : built SprinklerSchedule :=
  if ScheduleModel_valid m then
    match new_schedule (sm_days m) (sm_start_time m)
            (sm_duration_minutes m) (sm_enabled m) with
    | Some s => Built s
    | None => ValueError
    end
  else ValidationError.

(** ** Zones *)

(** [zid] stands for the identity of the Python object: a run thread
    holds the object it was given and writes its [active] flag, whether
    or not the controller still lists it. *)
Record Zone := mk_zone {
  zid : nat;
  name : string;
  gpio_pin : Z;
  schedule : SprinklerSchedule;
  active : bool
}.

Definition with_active (b : bool) (z : Zone) : Zone :=
  mk_zone (zid z) (name z) (gpio_pin z) (schedule z) b.

(** ** The schedule file *)

(** A JSON document whose members, where present, have the types the
    annotations of the code give them; [None] is an absent key. *)
Record schedule_doc := mk_schedule_doc {
  sd_days : option (list Z);
  sd_start_time : option string;
  sd_duration_minutes : option Z;
  sd_enabled : option bool
}.

Record zone_doc := mk_zone_doc {
  zd_name : option string;
  zd_gpio_pin : option Z;
  zd_schedule : option schedule_doc
}.

Record doc := mk_doc {
  d_global_schedule_enabled : option bool;
  d_zones : option (list zone_doc)
}.

Inductive store :=
  | Missing              (* open() raises FileNotFoundError *)
  | Corrupt              (* json.load() raises *)
  | Doc (d : doc).

Definition SprinklerSchedule_to_dict (s : SprinklerSchedule) : schedule_doc :=
  mk_schedule_doc (Some (days s)) (Some (strftime_HM (start_time s)))
    (Some (duration_minutes s)) (Some (enabled s)).

Definition Zone_to_dict (z : Zone) : zone_doc :=
  mk_zone_doc (Some (name z)) (Some (gpio_pin z))
    (Some (SprinklerSchedule_to_dict (schedule z))).

(** ** Run threads *)

Inductive run_pc :=
  | Dispatched           (* handed to a thread, [run_zone] not yet entered *)
  | Waiting              (* inside [stop_events[zone.name].wait(...)] *)
  | Detached (flag : bool)
                         (* inside the wait, on an Event object that
                            [stop_events] no longer holds, with its flag *)
  | Finished             (* [run_zone] returned *)
  | Crashed.             (* [run_zone] raised *)

Record run := mk_run {
  r_zone : Zone;         (* the object passed to [run_zone] *)
  r_duration : Z;
  r_pc : run_pc
}.

Definition with_pc (pc : run_pc) (r : run) : run :=
  mk_run (r_zone r) (r_duration r) pc.

(** ** The controller *)

(** The fields of [SprinklerController], and with them what its methods
    act upon: the contents of the schedule file, the output level of
    every pin that was set up, and the threads running [run_zone]. *)
Record SprinklerController := mk_controller {
  schedule_file : store;
  zones : list Zone;
  is_running : bool;
  stop_events : gmap string bool;
  global_schedule_enabled : bool;
  gpio : gmap Z bool;
  threads : list run;
  next_zid : nat
}.

Definition set_file (f : store) (c : SprinklerController) :=
  mk_controller f (zones c) (is_running c) (stop_events c)
    (global_schedule_enabled c) (gpio c) (threads c) (next_zid c).
Definition set_zones (zs : list Zone) (c : SprinklerController) :=
  mk_controller (schedule_file c) zs (is_running c) (stop_events c)
    (global_schedule_enabled c) (gpio c) (threads c) (next_zid c).
Definition set_stop_events (ev : gmap string bool) (c : SprinklerController) :=
  mk_controller (schedule_file c) (zones c) (is_running c) ev
    (global_schedule_enabled c) (gpio c) (threads c) (next_zid c).
Definition set_global (b : bool) (c : SprinklerController) :=
  mk_controller (schedule_file c) (zones c) (is_running c) (stop_events c)
    b (gpio c) (threads c) (next_zid c).
Definition set_gpio (g : gmap Z bool) (c : SprinklerController) :=
  mk_controller (schedule_file c) (zones c) (is_running c) (stop_events c)
    (global_schedule_enabled c) g (threads c) (next_zid c).
Definition set_threads (ts : list run) (c : SprinklerController) :=
  mk_controller (schedule_file c) (zones c) (is_running c) (stop_events c)
    (global_schedule_enabled c) (gpio c) ts (next_zid c).
Definition set_next_zid (n : nat) (c : SprinklerController) :=
  mk_controller (schedule_file c) (zones c) (is_running c) (stop_events c)
    (global_schedule_enabled c) (gpio c) (threads c) n.

Definition HIGH := true.
Definition LOW := false.

(** [GPIO.setup(pin, GPIO.OUT)] followed by [GPIO.output(pin, level)],
    and [GPIO.output] alone, are the same write in this driver. *)
Definition GPIO_output (pin : Z) (level : bool) (c : SprinklerController) :=
  set_gpio (<[pin := level]> (gpio c)) c.

(** [Zone.__init__]: a new object, inactive, its pin set up and low. *)
Definition new_zone (n : string) (pin : Z) (s : SprinklerSchedule)
    (c : SprinklerController) : Zone * SprinklerController :=
  (mk_zone (next_zid c) n pin s false,
   set_next_zid (S (next_zid c)) (GPIO_output pin LOW c)).

(** What becomes of the runs that wait on the Event object of a name
    when [stop_events] loses that object, by [del] or by a new object
    bound to the name: they wait on, on the object they fetched when
    their wait began, with the flag it has then; nothing else holds
    that object any more, so the flag stays as it is. *)
Definition detach (n : string) (c : SprinklerController) :=
  set_threads
    (map (fun r =>
            match r_pc r with
            | Waiting =>
                if String.eqb (name (r_zone r)) n
                then with_pc (Detached (default false (stop_events c !! n))) r
                else r
            | _ => r
            end)
       (threads c))
    c.

(** [threading.Event()] bound to a name: a new, cleared event. *)
Definition new_event (n : string) (c : SprinklerController) :=
  set_stop_events (<[n := false]> (stop_events c)) (detach n c).

(** [del self.stop_events[n]] *)
Definition del_event (n : string) (c : SprinklerController) :=
  set_stop_events (delete n (stop_events c)) (detach n c).

Definition save_schedule (c : SprinklerController) : SprinklerController :=
  set_file
    (Doc (mk_doc (Some (global_schedule_enabled c))
            (Some (map Zone_to_dict (zones c)))))
    c.

(** ** Loading and the default schedule *)

(** How a block that may raise leaves the controller. *)
Inductive outcome :=
  | Returned (c : SprinklerController)
  | Raised (c : SprinklerController).

(** The body of the loop of [load_schedule] for one entry of
    [data['zones']]. A missing key and an unparsable start time raise
    before anything is written. *)
Definition load_zone (zone_data : zone_doc) (c : SprinklerController) : outcome :=
  match zd_schedule zone_data with
  | None => Raised c
  | Some sd =>
      match sd_days sd, sd_start_time sd, sd_duration_minutes sd with
      | Some ds, Some st, Some dur =>
          match new_schedule ds st dur (default true (sd_enabled sd)) with
          | None => Raised c
          | Some s =>
              match zd_name zone_data, zd_gpio_pin zone_data with
              | Some n, Some pin =>
                  let '(zone, c1) := new_zone n pin s c in
                  Returned (new_event n (set_zones (zones c1 ++ [zone]) c1))
              | _, _ => Raised c
              end
          end
      | _, _, _ => Raised c
      end
  end.

Fixpoint load_zones (zds : list zone_doc) (c : SprinklerController) : outcome :=
  match zds with
  | [] => Returned c
  | zone_data :: rest =>
      match load_zone zone_data c with
      | Returned c1 => load_zones rest c1
      | Raised c1 => Raised c1
      end
  end.

(** [create_default_schedule]; [None] if one of its two
    [SprinklerSchedule] calls raised. *)
Definition create_default_schedule (c : SprinklerController)
    : option SprinklerController :=
  match new_schedule [0; 2; 4] "06:00" 20 true,
        new_schedule [1; 3; 5] "06:30" 15 true with
  | Some schedule1, Some schedule2 =>
      let '(zone1, c1) := new_zone "Front Yard" 17 schedule1 c in
      let '(zone2, c2) := new_zone "Back Yard" 27 schedule2 c1 in
      let c3 := set_zones [zone1; zone2] c2 in
      let c4 := new_event "Back Yard" (new_event "Front Yard" c3) in
      Some (save_schedule c4)
  | _, _ => None
  end.

(** [load_schedule]: both handlers build the default schedule, from the
    controller as the failed [try] block left it. *)
Definition load_schedule (c : SprinklerController) : option SprinklerController :=
  match schedule_file c with
  | Missing => create_default_schedule c
  | Corrupt => create_default_schedule c
  | Doc data =>
      let c1 :=
        set_zones []
          (set_global (default true (d_global_schedule_enabled data)) c) in
      match d_zones data with
      | None => create_default_schedule c1
      | Some zds =>
          match load_zones zds c1 with
          | Returned c2 => Some c2
          | Raised c2 => create_default_schedule c2
          end
      end
  end.

(** [SprinklerController.__init__] on a given schedule file. *)
Definition SprinklerController_init (file : store) : option SprinklerController :=
  load_schedule (mk_controller file [] false ∅ true ∅ [] 0%nat).

(** ** Zones on and off, and [run_zone] *)

Definition set_active (id : nat) (b : bool) (zs : list Zone) : list Zone :=
  map (fun z => if Nat.eqb (zid z) id then with_active b z else z) zs.

Definition start_zone (zone : Zone) (c : SprinklerController) :=
  set_zones (set_active (zid zone) true (zones c))
    (GPIO_output (gpio_pin zone) HIGH c).

Definition stop_zone (zone : Zone) (c : SprinklerController) :=
  set_zones (set_active (zid zone) false (zones c))
    (GPIO_output (gpio_pin zone) LOW c).

(** [threading.TIMEOUT_MAX] of CPython on a 64-bit platform, in whole
    seconds: a lock refuses a longer timeout with [OverflowError]. *)
Definition TIMEOUT_MAX : Z := 9223372036.

(** [run_zone] up to its wait: the zone is started and the event looked
    up by name, which raises [KeyError] for a name without an event;
    the wait on an event that is not set then takes its lock with the
    timeout, which raises [OverflowError] for one too large. An event
    already set makes [wait] return before the timeout is looked at. *)
Definition run_zone_enter (r : run) (c : SprinklerController)
    : run_pc * SprinklerController :=
  let c1 := start_zone (r_zone r) c in
  match stop_events c1 !! name (r_zone r) with
  | Some true => (Waiting, c1)
  | Some false =>
      if TIMEOUT_MAX <? r_duration r * 60 then (Crashed, c1)
      else (Waiting, c1)
  | None => (Crashed, c1)
  end.

(** [run_zone] after its wait: the zone is stopped and the event looked
    up again and cleared. *)
Definition run_zone_exit (r : run) (c : SprinklerController)
    : run_pc * SprinklerController :=
  let c1 := stop_zone (r_zone r) c in
  match stop_events c1 !! name (r_zone r) with
  | Some _ =>
      (Finished,
       set_stop_events (<[name (r_zone r) := false]> (stop_events c1)) c1)
  | None => (Crashed, c1)
  end.

(** Why [wait(timeout=...)] returned. Time is not measured: the timeout
    may elapse in any state, a cancellation needs the flag of the Event
    object the run waits on: the one [stop_events] holds for the name,
    or the one it held when it lost it. *)
Inductive wake := Elapsed | Cancelled.

Definition wait_returns (w : wake) (r : run) (c : SprinklerController) : bool :=
  match w with
  | Elapsed => true
  | Cancelled =>
      match r_pc r with
      | Detached flag => flag
      | _ =>
          match stop_events c !! name (r_zone r) with
          | Some true => true
          | _ => false
          end
      end
  end.

(** One move of thread [i]: entering [run_zone], or leaving its wait. *)
Definition thread_step (i : nat) (w : wake) (c : SprinklerController)
    : option SprinklerController :=
  match threads c !! i with
  | Some r =>
      match r_pc r with
      | Dispatched =>
          let '(pc, c1) := run_zone_enter r c in
          Some (set_threads (<[i := with_pc pc r]> (threads c1)) c1)
      | Waiting | Detached _ =>
          if wait_returns w r c then
            let '(pc, c1) := run_zone_exit r c in
            Some (set_threads (<[i := with_pc pc r]> (threads c1)) c1)
          else None
      | Finished | Crashed => None
      end
  | None => None
  end.

(** [run_zone] with no other thread moving in between. *)
Definition run_zone (zone : Zone) (duration : Z) (c : SprinklerController)
    : run_pc * SprinklerController :=
  let r := mk_run zone duration Dispatched in
  match run_zone_enter r c with
  | (Waiting, c1) => run_zone_exit r c1
  | stuck => stuck
  end.

(** Handing [run_zone] to a new thread or to the background tasks. *)
Definition spawn (zone : Zone) (duration : Z) (c : SprinklerController) :=
  set_threads (threads c ++ [mk_run zone duration Dispatched]) c.

(** ** The scheduler tick *)

Fixpoint check_zones (now : datetime) (zs : list Zone) (c : SprinklerController)
    : SprinklerController :=
  match zs with
  | [] => c
  | zone :: rest =>
      if negb (enabled (schedule zone)) then check_zones now rest c
      else if should_run_today (schedule zone) now
              && is_start_time (schedule zone) now then
        if negb (active zone) then
          check_zones now rest
            (spawn zone (duration_minutes (schedule zone)) c)
        else check_zones now rest c
      else check_zones now rest c
  end.

Definition check_and_run (now : datetime) (c : SprinklerController) :=
  if negb (global_schedule_enabled c) then c
  else check_zones now (zones c) c.

(** ** Adding and removing zones *)

(** [add_zone]; [None] is the [ValueError] of the start time, raised
    before anything is written. *)
Definition add_zone (n : string) (pin : Z) (ds : list Z) (st : string)
    (dur : Z) (en : bool) (c : SprinklerController) : option SprinklerController :=
  match new_schedule ds st dur en with
  | None => None
  | Some s =>
      let '(zone, c1) := new_zone n pin s c in
      Some (save_schedule (new_event n (set_zones (zones c1 ++ [zone]) c1)))
  end.

(** The search of [for i, zone in enumerate(self.zones)]: the first
    zone of that name, with its index. *)
Fixpoint find_zone_index (zone_name : string) (zs : list Zone) (i : nat)
    : option (nat * Zone) :=
  match zs with
  | [] => None
  | zone :: rest =>
      if String.eqb (name zone) zone_name then Some (i, zone)
      else find_zone_index zone_name rest (S i)
  end.

(** [self.stop_events[zone_name].set()] followed by
    [self.stop_zone(zone)]; [None] is the [KeyError] of a name without
    an event, raised before anything is written. *)
Definition signal_and_stop (zone_name : string) (zone : Zone)
    (c : SprinklerController) : option SprinklerController :=
  match stop_events c !! zone_name with
  | Some _ =>
      Some (stop_zone zone
              (set_stop_events (<[zone_name := true]> (stop_events c)) c))
  | None => None
  end.

(** [remove_zone]: [Some true] and [Some false] are its results, [None]
    is the [KeyError] of a name without an event, with the controller
    as the exception leaves it. *)
Definition remove_zone (zone_name : string) (c : SprinklerController)
    : option bool * SprinklerController :=
  match find_zone_index zone_name (zones c) 0%nat with
  | None => (Some false, c)
  | Some (i, zone) =>
      let stopped :=
        if active zone then signal_and_stop zone_name zone c else Some c in
      match stopped with
      | None => (None, c)
      | Some c1 =>
          let c2 := set_zones (delete i (zones c1)) c1 in
          match stop_events c2 !! zone_name with
          | Some _ => (Some true, save_schedule (del_event zone_name c2))
          | None => (None, c2)
          end
      end
  end.

(** ** Request handlers *)

Inductive status :=
  | OK_200
  | Created_201
  | BadRequest_400
  | NotFound_404
  | Conflict_409
  | Unprocessable_422
  | ServerError_500.

(** [for zone in controller.zones: if zone.name == zone_name: ... break] *)
Definition find_zone (zone_name : string) (zs : list Zone) : option Zone :=
  find (fun zone => String.eqb (name zone) zone_name) zs.

(** The loop of [create_zone] that raises 409. *)
Fixpoint zone_exists (m : ZoneModel) (zs : list Zone) : bool :=
  match zs with
  | [] => false
  | existing_zone :: rest =>
      if String.eqb (name existing_zone) (zm_name m) then true
      else if gpio_pin existing_zone =? zm_gpio_pin m then true
      else zone_exists m rest
  end.

Definition create_zone (m : ZoneModel) (c : SprinklerController)
    : status * SprinklerController :=
  if zone_exists m (zones c) then (Conflict_409, c)
  else
    match add_zone (zm_name m) (zm_gpio_pin m) (sm_days (zm_schedule m))
            (sm_start_time (zm_schedule m))
            (sm_duration_minutes (zm_schedule m))
            (sm_enabled (zm_schedule m)) c with
    | Some c' => (Created_201, c')
    | None => (BadRequest_400, c)
    end.

(** [POST /zones]: the body is validated against [ZoneModel] before the
    handler runs. *)
Definition post_zones (m : ZoneModel) (c : SprinklerController)
    : status * SprinklerController :=
  if ZoneModel_valid m then create_zone m c else (Unprocessable_422, c).

Definition run_zone_manually (zone_name : string) (run_params : ManualRunModel)
    (c : SprinklerController) : status * SprinklerController :=
  match find_zone zone_name (zones c) with
  | None => (NotFound_404, c)
  | Some target_zone =>
      if active target_zone then (Conflict_409, c)
      else (OK_200, spawn target_zone (mr_duration_minutes run_params) c)
  end.

Definition post_run (zone_name : string) (run_params : ManualRunModel)
    (c : SprinklerController) : status * SprinklerController :=
  if ManualRunModel_valid run_params
  then run_zone_manually zone_name run_params c
  else (Unprocessable_422, c).

Definition stop_zone_manually (zone_name : string) (c : SprinklerController)
    : status * SprinklerController :=
  match find_zone zone_name (zones c) with
  | None => (NotFound_404, c)
  | Some target_zone =>
      if negb (active target_zone) then (Conflict_409, c)
      else
        match stop_events c !! zone_name with
        | Some _ =>
            (OK_200, set_stop_events (<[zone_name := true]> (stop_events c)) c)
        | None => (ServerError_500, c)
        end
  end.

(** ** The system as a transition relation

    Requests and ticks are single moves; a run thread moves twice, into
    its wait and out of it, and anything may happen in between. *)
Inductive step : SprinklerController -> SprinklerController -> Prop :=
  | step_tick now c :
      valid_datetime now -> step c (check_and_run now c)
  | step_post_zones m c :
      step c (snd (post_zones m c))
  | step_remove_zone zone_name c :
      step c (snd (remove_zone zone_name c))
  | step_post_run zone_name m c :
      step c (snd (post_run zone_name m c))
  | step_post_stop zone_name c :
      step c (snd (stop_zone_manually zone_name c))
  | step_thread i w c c' :
      thread_step i w c = Some c' -> step c c'.

Definition reachable (file : store) (c : SprinklerController) : Prop :=
  exists c0, SprinklerController_init file = Some c0 /\ rtc step c0 c.

(** The runs of a zone that are between [start_zone] and [stop_zone]. *)
Definition in_progress (zone_name : string) (c : SprinklerController) : list run :=
  List.filter (fun r => match r_pc r with
                   | Waiting | Detached _ =>
                       String.eqb (name (r_zone r)) zone_name
                   | _ => false
                   end) (threads c).

(** ** The other methods of the controller *)

Definition set_is_running (b : bool) (c : SprinklerController) :=
  mk_controller (schedule_file c) (zones c) b (stop_events c)
    (global_schedule_enabled c) (gpio c) (threads c) (next_zid c).

Definition with_schedule (s : SprinklerSchedule) (z : Zone) : Zone :=
  mk_zone (zid z) (name z) (gpio_pin z) s (active z).

Definition with_enabled (b : bool) (s : SprinklerSchedule) : SprinklerSchedule :=
  mk_schedule (days s) (start_time s) (duration_minutes s) b.

(** [GPIO.cleanup()]: no pin is set up any more. *)
Definition GPIO_cleanup (c : SprinklerController) := set_gpio ∅ c.

Module controller.

(** [update_zone_schedule]: the schedule of the first zone of that name
    is replaced and the file written. The new schedule is only built
    once such a zone is found, so [None], the [ValueError] of its start
    time, needs a listed name; nothing is written before it. *)
Definition update_zone_schedule (zone_name : string) (ds : list Z)
    (st : string) (dur : Z) (en : bool) (c : SprinklerController)
    : option SprinklerController :=
  match find_zone_index zone_name (zones c) 0%nat with
  | None => Some c
  | Some (i, zone) =>
      match new_schedule ds st dur en with
      | None => None
      | Some s =>
          Some (save_schedule
                  (set_zones (<[i := with_schedule s zone]> (zones c)) c))
      end
  end.

(** [zone.schedule.enabled = True] on the first zone of that name. *)
Definition enable_zone_schedule (zone_name : string) (c : SprinklerController)
    : SprinklerController :=
  match find_zone_index zone_name (zones c) 0%nat with
  | None => c
  | Some (i, zone) =>
      save_schedule
        (set_zones
           (<[i := with_schedule (with_enabled true (schedule zone)) zone]>
              (zones c)) c)
  end.

Definition disable_zone_schedule (zone_name : string) (c : SprinklerController)
    : SprinklerController :=
  match find_zone_index zone_name (zones c) 0%nat with
  | None => c
  | Some (i, zone) =>
      save_schedule
        (set_zones
           (<[i := with_schedule (with_enabled false (schedule zone)) zone]>
              (zones c)) c)
  end.

Definition enable_global_schedule (c : SprinklerController) :=
  save_schedule (set_global true c).

Definition disable_global_schedule (c : SprinklerController) :=
  save_schedule (set_global false c).

(** The loop of [cleanup]: the event of each zone is set, which raises
    for a name without an event, and an active zone is stopped. The
    entries of the list are distinct objects, so the flag read for a
    zone is the one it had when the loop began. *)
Fixpoint cleanup_zones (zs : list Zone) (c : SprinklerController) : outcome :=
  match zs with
  | [] => Returned c
  | zone :: rest =>
      match stop_events c !! name zone with
      | None => Raised c
      | Some _ =>
          let c1 :=
            set_stop_events (<[name zone := true]> (stop_events c)) c in
          cleanup_zones rest (if active zone then stop_zone zone c1 else c1)
      end
  end.

Definition cleanup (c : SprinklerController) : outcome :=
  match cleanup_zones (zones c) (set_is_running false c) with
  | Returned c1 => Returned (GPIO_cleanup c1)
  | Raised c1 => Raised c1
  end.

End controller.

(** ** The other request handlers *)

Module api_server.

Record ZoneUpdateModel := mk_ZoneUpdateModel { zu_schedule : ScheduleModel }.

Record ZoneStatusModel := mk_ZoneStatusModel {
  zs_name : string;
  zs_gpio_pin : Z;
  zs_active : bool;
  zs_schedule : schedule_doc
}.

Definition zone_status (zone : Zone) : ZoneStatusModel :=
  mk_ZoneStatusModel (name zone) (gpio_pin zone) (active zone)
    (SprinklerSchedule_to_dict (schedule zone)).

Definition get_zones (c : SprinklerController) : list ZoneStatusModel :=
  map zone_status (zones c).

Definition get_zone (zone_name : string) (c : SprinklerController)
    : status * option ZoneStatusModel :=
  match find_zone zone_name (zones c) with
  | Some zone => (OK_200, Some (zone_status zone))
  | None => (NotFound_404, None)
  end.

(** [any(zone.name == zone_name for zone in controller.zones)] *)
Definition zone_listed (zone_name : string) (c : SprinklerController) : bool :=
  existsb (fun zone => String.eqb (name zone) zone_name) (zones c).

Definition update_zone_schedule (zone_name : string)
    (zone_update : ZoneUpdateModel) (c : SprinklerController)
    : status * SprinklerController :=
  if negb (zone_listed zone_name c) then (NotFound_404, c)
  else
    match controller.update_zone_schedule zone_name
            (sm_days (zu_schedule zone_update))
            (sm_start_time (zu_schedule zone_update))
            (sm_duration_minutes (zu_schedule zone_update))
            (sm_enabled (zu_schedule zone_update)) c with
    | Some c' => (OK_200, c')
    | None => (BadRequest_400, c)
    end.

(** [PUT /zones/{zone_name}/schedule], the body validated first. *)
Definition put_schedule (zone_name : string) (zone_update : ZoneUpdateModel)
    (c : SprinklerController) : status * SprinklerController :=
  if ScheduleModel_valid (zu_schedule zone_update)
  then update_zone_schedule zone_name zone_update c
  else (Unprocessable_422, c).

(** [delete_zone]: the 404 for a zone that was not found is raised
    inside the [try] and, being an [Exception], is turned into a 400 by
    its handler, as is the [KeyError] of [remove_zone]. *)
Definition delete_zone (zone_name : string) (c : SprinklerController)
    : status * SprinklerController :=
  match remove_zone zone_name c with
  | (Some true, c') => (OK_200, c')
  | (Some false, c') => (BadRequest_400, c')
  | (None, c') => (BadRequest_400, c')
  end.

Definition enable_global_schedule (c : SprinklerController)
    : status * SprinklerController :=
  (OK_200, controller.enable_global_schedule c).

Definition disable_global_schedule (c : SprinklerController)
    : status * SprinklerController :=
  (OK_200, controller.disable_global_schedule c).

Definition enable_zone_schedule (zone_name : string) (c : SprinklerController)
    : status * SprinklerController :=
  if negb (zone_listed zone_name c) then (NotFound_404, c)
  else (OK_200, controller.enable_zone_schedule zone_name c).

Definition disable_zone_schedule (zone_name : string) (c : SprinklerController)
    : status * SprinklerController :=
  if negb (zone_listed zone_name c) then (NotFound_404, c)
  else (OK_200, controller.disable_zone_schedule zone_name c).

End api_server.

(** ** Every request as a transition

    The moves of [step], and with them the requests that replace a
    schedule, delete a zone and switch schedules on and off, and the
    [cleanup] of a shutdown, as it returns or as it raises. *)
Inductive request_step : SprinklerController -> SprinklerController -> Prop :=
  | request_core c c' :
      step c c' -> request_step c c'
  | request_put_schedule zone_name m c :
      request_step c (snd (api_server.put_schedule zone_name m c))
  | request_delete_zone zone_name c :
      request_step c (snd (api_server.delete_zone zone_name c))
  | request_enable_zone zone_name c :
      request_step c (snd (api_server.enable_zone_schedule zone_name c))
  | request_disable_zone zone_name c :
      request_step c (snd (api_server.disable_zone_schedule zone_name c))
  | request_enable_global c :
      request_step c (snd (api_server.enable_global_schedule c))
  | request_disable_global c :
      request_step c (snd (api_server.disable_global_schedule c))
  | request_cleanup_returned c c' :
      controller.cleanup c = Returned c' -> request_step c c'
  | request_cleanup_raised c c' :
      controller.cleanup c = Raised c' -> request_step c c'.

(** What every request keeps: the names of the listed zones are
    distinct, so are their pins, and each name has an event. *)
Definition well_kept (c : SprinklerController) : Prop :=
  List.NoDup (map name (zones c))
  /\ List.NoDup (map gpio_pin (zones c))
  /\ (forall z, In z (zones c) -> is_Some (stop_events c !! name z)).

(** The schedule file holds what [save_schedule] writes for the zones
    and the flag in memory. *)
Definition in_sync (c : SprinklerController) : Prop :=
  schedule_file c =
  Doc (mk_doc (Some (global_schedule_enabled c))
         (Some (map Zone_to_dict (zones c)))).

Definition valid_times (c : SprinklerController) : Prop :=
  Forall (fun z => valid_time (start_time (schedule z))) (zones c).

Definition kept (c : SprinklerController) : Prop :=
  well_kept c /\ in_sync c /\ valid_times c.

Definition reachable_by_requests (file : store) (c : SprinklerController) : Prop :=
  exists c0,
    SprinklerController_init file = Some c0 /\ rtc request_step c0 c.

(** The controller as a block left it, returning or raising. *)
Definition outcome_state (o : outcome) : SprinklerController :=
  match o with
  | Returned c => c
  | Raised c => c
  end.

(** The two zones of [create_default_schedule], as fields and as the
    entries written for them. *)
Definition default_fields : list (string * Z * list Z * dt_time * Z * bool) :=
  [ ("Front Yard", 17, [0; 2; 4], mk_time 6 0, 20, true);
    ("Back Yard", 27, [1; 3; 5], mk_time 6 30, 15, true) ].

Definition default_entries : list zone_doc :=
  [ mk_zone_doc (Some "Front Yard") (Some 17)
      (Some (mk_schedule_doc (Some [0; 2; 4]) (Some "06:00")
               (Some 20) (Some true)));
    mk_zone_doc (Some "Back Yard") (Some 27)
      (Some (mk_schedule_doc (Some [1; 3; 5]) (Some "06:30")
               (Some 15) (Some true))) ].

(** ** Notions used to state the properties *)

(** The instant one minute after, and one minute before, a given one. *)
Definition minute_after (d : datetime) : datetime :=
  let t := now_time d in
  if minute t <? 59 then mk_datetime (weekday d) (mk_time (hour t) (minute t + 1))
  else if hour t <? 23 then mk_datetime (weekday d) (mk_time (hour t + 1) 0)
  else mk_datetime ((weekday d + 1) mod 7) (mk_time 0 0).

Definition minute_before (d : datetime) : datetime :=
  let t := now_time d in
  if 0 <? minute t then mk_datetime (weekday d) (mk_time (hour t) (minute t - 1))
  else if 0 <? hour t then mk_datetime (weekday d) (mk_time (hour t - 1) 59)
  else mk_datetime ((weekday d + 6) mod 7) (mk_time 23 59).

(** The fields of a zone that the schedule file keeps. *)
Definition persisted_fields (z : Zone)
    : string * Z * list Z * dt_time * Z * bool :=
  (name z, gpio_pin z, days (schedule z), start_time (schedule z),
   duration_minutes (schedule z), enabled (schedule z)).

(** Days that are weekdays, and the schedule inputs that the
    specification names invalid. *)
Definition days_in_week (ds : list Z) : Prop :=
  Forall (fun d => 0 <= d <= 6) ds.

Definition named_invalid (m : ScheduleModel) : Prop :=
  start_time_pattern (sm_start_time m) = false
  \/ ~ (0 < sm_duration_minutes m <= 180)
  \/ sm_days m = []
  \/ ~ days_in_week (sm_days m).

(** A zone the tick finds due, and the run the tick hands to a thread
    for it. *)
Definition due (now : datetime) (z : Zone) : bool :=
  enabled (schedule z) && negb (active z) && matches (schedule z) now.

Definition scheduled_run (z : Zone) : run :=
  mk_run z (duration_minutes (schedule z)) Dispatched.

(** A scenario to try the properties on: the first start without a
    schedule file, a manual run of the front yard requested, that run
    entered, and its stop requested. An operation that raised would
    leave [blank]; none of these does. *)
Definition blank : SprinklerController :=
  mk_controller Missing [] false ∅ true ∅ [] 0%nat.

Definition five_minutes : ManualRunModel := mk_ManualRunModel 5.

Definition s_boot : SprinklerController :=
  default blank (SprinklerController_init Missing).

Definition s_requested : SprinklerController :=
  snd (post_run "Front Yard" five_minutes s_boot).

Definition s_running : SprinklerController :=
  default blank (thread_step 0 Elapsed s_requested).

Definition s_stopping : SprinklerController :=
  snd (stop_zone_manually "Front Yard" s_running).

(** The front yard deleted by request while its run is waiting. *)
Definition s_deleted : SprinklerController :=
  snd (api_server.delete_zone "Front Yard" s_running).

(** The same with a second request arriving before the first run has
    entered, and both runs entering afterwards. *)
Definition s_requested_twice : SprinklerController :=
  snd (post_run "Front Yard" five_minutes s_requested).

Definition s_running_twice : SprinklerController :=
  default blank
    (thread_step 1 Elapsed
       (default blank (thread_step 0 Elapsed s_requested_twice))).


(** A schedule file with two zones of one name, which [load_schedule]
    takes as it is. *)
Definition lawn (pin : Z) : zone_doc :=
  mk_zone_doc (Some "Lawn") (Some pin)
    (Some (mk_schedule_doc (Some [0]) (Some "06:00") (Some 10) None)).

Definition s_two_lawns : SprinklerController :=
  default blank
    (SprinklerController_init (Doc (mk_doc None (Some [lawn 5; lawn 6])))).

(** An entry of [data['zones']] with every key that [load_schedule]
    indexes, and a start time that parses; the two [enabled] keys are
    the ones it reads with [get]. *)
Definition complete_entry (zd : zone_doc) : Prop :=
  exists n pin sd ds st dur t,
    zd_name zd = Some n /\ zd_gpio_pin zd = Some pin
    /\ zd_schedule zd = Some sd
    /\ sd_days sd = Some ds /\ sd_start_time sd = Some st
    /\ sd_duration_minutes sd = Some dur
    /\ strptime_HM st = Some t.

(** The zone is what the entry says, field for field, with an absent
    [enabled] read as true, and it is inactive. *)
Definition loads_as (zd : zone_doc) (z : Zone) : Prop :=
  exists sd st,
    zd_name zd = Some (name z) /\ zd_gpio_pin zd = Some (gpio_pin z)
    /\ zd_schedule zd = Some sd
    /\ sd_days sd = Some (days (schedule z))
    /\ sd_start_time sd = Some st
    /\ strptime_HM st = Some (start_time (schedule z))
    /\ sd_duration_minutes sd = Some (duration_minutes (schedule z))
    /\ enabled (schedule z) = default true (sd_enabled sd)
    /\ active z = false.

(** A schedule file that leaves out both [enabled] keys. *)
Definition s_no_flags : SprinklerController :=
  set_file (Doc (mk_doc None (Some [lawn 5]))) blank.

(** A schedule file whose second zone has no pin. *)
Definition s_bad_entry : SprinklerController :=
  set_file
    (Doc (mk_doc (Some false)
            (Some [lawn 5;
                   mk_zone_doc (Some "Hedge") None
                     (Some (mk_schedule_doc (Some [1]) (Some "07:00")
                              (Some 5) None))])))
    blank.

(** Whether the time [h]:[m] is read back from its own string. *)
Definition round_trips (h m : nat) : bool :=
  let t := mk_time (Z.of_nat h) (Z.of_nat m) in
  match strptime_HM (strftime_HM t) with
  | Some t' => dt_time_eqb t' t
  | None => false
  end.

(** * Properties *)

(** ** Time strings *)

Lemma digit_bounds c d : digit c = Some d -> 0 <= d <= 9.
Proof.
  unfold digit. intros H.
  destruct (48 <=? Z.of_N (N_of_ascii c)) eqn:E1; [|discriminate].
  destruct (Z.of_N (N_of_ascii c) <=? 57) eqn:E2; [|discriminate].
  simpl in H. injection H as <-. lia.
Qed.

Lemma round_trips_all :
  forallb (fun h => forallb (round_trips h) (seq 0 60)) (seq 0 24) = true.
Proof. vm_compute. reflexivity. Qed.

Lemma dt_time_eqb_eq a b : dt_time_eqb a b = true -> a = b.
Proof.
  destruct a as [h m], b as [h' m']. unfold dt_time_eqb. simpl.
  intros H. apply andb_true_iff in H as [H1 H2].
  apply Z.eqb_eq in H1, H2. congruence.
Qed.

(** A valid time survives [strftime] followed by [strptime]. *)
Lemma strptime_strftime t :
  valid_time t -> strptime_HM (strftime_HM t) = Some t.
Proof.
  destruct t as [h m]. unfold valid_time. simpl. intros [Hh Hm].
  pose proof round_trips_all as H.
  rewrite forallb_forall in H.
  specialize (H (Z.to_nat h)).
  rewrite forallb_forall in H.
  assert (Hin : In (Z.to_nat h) (seq 0 24)) by (apply in_seq; lia).
  specialize (H Hin (Z.to_nat m)).
  assert (Hin' : In (Z.to_nat m) (seq 0 60)) by (apply in_seq; lia).
  specialize (H Hin'). unfold round_trips in H.
  rewrite !Z2Nat.id in H by lia.
  destruct (strptime_HM (strftime_HM (mk_time h m))) as [t'|]; [|discriminate].
  f_equal. now apply dt_time_eqb_eq.
Qed.

#[local] Arguments digit : simpl never.
#[local] Arguments in_range : simpl never.
#[local] Arguments Ascii.eqb : simpl never.
#[local] Arguments Z.mul : simpl never.
#[local] Arguments Z.add : simpl never.

(** Case analysis on the next character test of a matcher in [H],
    dropping the cases in which the match has already failed. *)
Ltac case_char H :=
  match type of H with
  | context [digit ?c] =>
      let d := fresh "d" in
      let E := fresh "Ed" in
      destruct (digit c) as [d|] eqn:E
  | context [in_range ?lo ?hi ?d] =>
      let E := fresh "Er" in
      destruct (in_range lo hi d) eqn:E
  | context [Ascii.eqb ?c ?k] =>
      let E := fresh "Ec" in
      destruct (Ascii.eqb c k) eqn:E
  end; cbn in H |- *; try discriminate H.

Ltac case_goal :=
  match goal with
  | |- context [digit ?c] =>
      let d := fresh "d" in
      let E := fresh "Ed" in
      destruct (digit c) as [d|] eqn:E
  | |- context [in_range ?lo ?hi ?d] =>
      let E := fresh "Er" in
      destruct (in_range lo hi d) eqn:E
  | |- context [Ascii.eqb ?c ?k] =>
      let E := fresh "Ec" in
      destruct (Ascii.eqb c k) eqn:E
  end; cbn.

Lemma colon_is_no_digit c d :
  Ascii.eqb c ":" = true -> digit c = Some d -> False.
Proof.
  intros Hc Hd. apply Ascii.eqb_eq in Hc. subst c.
  vm_compute in Hd. discriminate Hd.
Qed.

(** What the case analysis leaves: the facts about digits and ranges
    as linear arithmetic. *)
Ltac digit_facts :=
  repeat match goal with
    | Ec : Ascii.eqb ?c _ = true, Ed : digit ?c = Some _ |- _ =>
        destruct (colon_is_no_digit _ _ Ec Ed)
    | Ed : digit _ = Some _ |- _ => apply digit_bounds in Ed
    | Ed : Some _ = Some _ |- _ => injection Ed as Ed; try subst
    end;
  unfold in_range in *;
  repeat match goal with
    | E : _ && _ = true |- _ => apply andb_true_iff in E as [? ?]
    | E : _ && _ = false |- _ => apply andb_false_iff in E as [E | E]
    | E : (_ <=? _) = true |- _ => apply Z.leb_le in E
    | E : (_ <=? _) = false |- _ => apply Z.leb_gt in E
    end.

(** A string the API accepts as a start time is one [strptime] reads,
    and it reads a valid time from it. *)
Lemma start_time_pattern_parses s :
  start_time_pattern s = true ->
  exists t, strptime_HM s = Some t /\ valid_time t.
Proof.
  unfold start_time_pattern, strptime_HM, format_regex_match.
  generalize (list_ascii_of_string s). intros l H.
  unfold pattern_hour, directive_H, directive_M, two_digits, one_digit,
    colon, any_digit in *.
  destruct l as [|c1 [|c2 [|c3 [|c4 [|c5 [|c6 l]]]]]];
    cbn in H |- *; try discriminate H.
  all: repeat case_char H.
  all: repeat case_goal.
  all: digit_facts.
  all: eexists; split; [reflexivity|]; unfold valid_time; simpl; lia.
Qed.

(** ** The trigger test *)

Lemma should_run_today_In s now :
  should_run_today s now = true <-> In (weekday now) (days s).
Proof.
  unfold should_run_today. rewrite existsb_exists. split.
  - intros (d & Hin & Heq). apply Z.eqb_eq in Heq. now subst.
  - intros Hin. exists (weekday now). split; [assumption | apply Z.eqb_refl].
Qed.

Lemma is_start_time_eq s now :
  valid_time (start_time s) -> valid_time (now_time now) ->
  is_start_time s now = true <-> now_time now = start_time s.
Proof.
  unfold is_start_time, valid_time.
  destruct (now_time now) as [h m], (start_time s) as [h' m']. simpl.
  intros [_ Hm'] [_ Hm]. rewrite Z.eqb_eq. split.
  - intros H. f_equal; lia.
  - intros H. injection H as -> ->. reflexivity.
Qed.

Lemma is_start_time_apart s now :
  hour (now_time now) * 60 + minute (now_time now)
    <> hour (start_time s) * 60 + minute (start_time s) ->
  matches s now = false.
Proof.
  intros H. unfold matches, is_start_time.
  apply Z.eqb_neq in H. rewrite H. apply andb_false_r.
Qed.

(** C2. For a schedule and an instant, both with valid times, the
    trigger test is true exactly when the weekday of the instant is one
    of the days of the schedule and its hour and minute are those of the
    start time; at the start time of any day it is false one minute
    before and one minute after. *)
Theorem matches_iff_day_and_minute (s : SprinklerSchedule) (now : datetime) :
  valid_time (start_time s) ->
  valid_time (now_time now) ->
  (matches s now = true <->
     In (weekday now) (days s)
     /\ hour (now_time now) = hour (start_time s)
     /\ minute (now_time now) = minute (start_time s))
  /\ (now_time now = start_time s ->
        matches s (minute_before now) = false
        /\ matches s (minute_after now) = false).
Proof.
  intros Hs Hn. split.
  - unfold matches. rewrite andb_true_iff, should_run_today_In,
      (is_start_time_eq s now Hs Hn).
    destruct (now_time now) as [h m], (start_time s) as [h' m']. simpl.
    split.
    + intros [Hd Ht]. injection Ht as -> ->. auto.
    + intros (Hd & -> & ->). auto.
  - intros Heq. destruct Hn as [Hh Hm]. rewrite Heq in Hh, Hm.
    split; apply is_start_time_apart;
      unfold minute_before, minute_after; rewrite Heq;
      destruct (start_time s) as [h' m']; simpl in *.
    + destruct (0 <? m') eqn:E1; [|destruct (0 <? h') eqn:E2]; simpl;
        rewrite ?Z.ltb_lt, ?Z.ltb_ge in *; lia.
    + destruct (m' <? 59) eqn:E1; [|destruct (h' <? 23) eqn:E2]; simpl;
        rewrite ?Z.ltb_lt, ?Z.ltb_ge in *; lia.
Qed.

(** The default schedule of the front yard on a Monday at 06:00. *)
Lemma matches_iff_day_and_minute_witness :
  let s := mk_schedule [0; 2; 4] (mk_time 6 0) 20 true in
  let now := mk_datetime 0 (mk_time 6 0) in
  valid_time (start_time s) /\ valid_time (now_time now)
  /\ matches s now = true
  /\ matches s (minute_before now) = false
  /\ matches s (minute_after now) = false.
Proof.
  intros s now.
  assert (Hs : valid_time (start_time s)) by (unfold valid_time; simpl; lia).
  assert (Hn : valid_time (now_time now)) by (unfold valid_time; simpl; lia).
  destruct (matches_iff_day_and_minute s now Hs Hn) as [Hiff Hnear].
  split; [exact Hs|]. split; [exact Hn|]. split.
  - apply Hiff. simpl. auto.
  - apply Hnear. reflexivity.
Defined.

(** ** Building a schedule *)

Lemma ScheduleModel_valid_spec m :
  ScheduleModel_valid m = true <->
  1 <= len (sm_days m) <= 7
  /\ start_time_pattern (sm_start_time m) = true
  /\ 0 < sm_duration_minutes m <= 180.
Proof.
  unfold ScheduleModel_valid.
  rewrite !andb_true_iff, !Z.leb_le, Z.ltb_lt. tauto.
Qed.

Lemma len_zero {A} (l : list A) : len l = 0 <-> l = [].
Proof. unfold len. destruct l; simpl; split; intros; try lia; congruence. Qed.

Lemma len_nonneg {A} (l : list A) : 0 <= len l.
Proof. unfold len. lia. Qed.

(** A valid model always yields a schedule, with the fields of the
    model and the start time read from its string. *)
Lemma schedule_of_valid_model m :
  ScheduleModel_valid m = true ->
  exists t, strptime_HM (sm_start_time m) = Some t /\ valid_time t
    /\ schedule_of_model m =
         Built (mk_schedule (sm_days m) t (sm_duration_minutes m) (sm_enabled m)).
Proof.
  intros Hv. pose proof Hv as Hv'.
  apply ScheduleModel_valid_spec in Hv' as (_ & Hp & _).
  destruct (start_time_pattern_parses _ Hp) as (t & Ht & Hvt).
  exists t. repeat split; try assumption; try apply Hvt.
  unfold schedule_of_model, new_schedule. now rewrite Hv, Ht.
Qed.

Lemma schedule_of_model_rejects m :
  schedule_of_model m = ValidationError <-> ScheduleModel_valid m = false.
Proof.
  split.
  - destruct (ScheduleModel_valid m) eqn:Hv; [|reflexivity].
    destruct (schedule_of_valid_model m Hv) as (t & _ & _ & Hb).
    rewrite Hb. discriminate.
  - intros Hv. unfold schedule_of_model. now rewrite Hv.
Qed.

(** C3, as the code has it. For a schedule input whose days are all
    weekdays, building a schedule from the request model fails with a
    validation error exactly when the start time does not match the
    HH:MM pattern, or the duration is outside (0, 180], or the list of
    days is empty or has more than seven entries; every other such
    input yields a schedule with the fields of the input, and a schedule
    is only ever built from an input that passed validation. *)
Theorem schedule_of_model_rejects_iff (m : ScheduleModel) :
  days_in_week (sm_days m) ->
  (schedule_of_model m = ValidationError <->
     start_time_pattern (sm_start_time m) = false
     \/ ~ (0 < sm_duration_minutes m <= 180)
     \/ sm_days m = []
     \/ 7 < len (sm_days m))
  /\ (schedule_of_model m <> ValidationError ->
        exists t, strptime_HM (sm_start_time m) = Some t
          /\ schedule_of_model m =
               Built (mk_schedule (sm_days m) t
                        (sm_duration_minutes m) (sm_enabled m)))
  /\ (forall s, schedule_of_model m = Built s -> ScheduleModel_valid m = true).
Proof.
  intros _. split; [|split].
  - rewrite schedule_of_model_rejects.
    pose proof (ScheduleModel_valid_spec m) as Hspec.
    pose proof (len_nonneg (sm_days m)) as Hlen.
    pose proof (len_zero (sm_days m)) as Hzero.
    destruct (ScheduleModel_valid m); split.
    + discriminate.
    + destruct Hspec as [Hspec _].
      destruct (Hspec eq_refl) as (Hl & Hp & Hd).
      intros [H | [H | [H | H]]]; [congruence | tauto | | lia].
      apply Hzero in H. lia.
    + intros _.
      destruct (start_time_pattern (sm_start_time m)) eqn:Hp; [|now left].
      right.
      destruct (Z.lt_ge_cases 0 (sm_duration_minutes m));
        [|left; lia].
      destruct (Z.le_gt_cases (sm_duration_minutes m) 180);
        [|left; lia].
      right.
      destruct (Z.le_gt_cases (len (sm_days m)) 7); [|now right].
      left. apply Hzero.
      destruct (Z.le_gt_cases 1 (len (sm_days m))); [|lia].
      destruct Hspec as [_ Hspec].
      assert (false = true) by (apply Hspec; auto). discriminate.
    + reflexivity.
  - intros Hne.
    destruct (ScheduleModel_valid m) eqn:Hv.
    + destruct (schedule_of_valid_model m Hv) as (t & Ht & _ & Hb). eauto.
    + apply schedule_of_model_rejects in Hv. contradiction.
  - intros s Hb. destruct (ScheduleModel_valid m) eqn:Hv; [reflexivity|].
    apply schedule_of_model_rejects in Hv. congruence.
Qed.

Lemma schedule_of_model_rejects_iff_witness :
  let m := mk_ScheduleModel [0; 2; 4] "06:00" 20 true in
  days_in_week (sm_days m)
  /\ schedule_of_model m = Built (mk_schedule [0; 2; 4] (mk_time 6 0) 20 true).
Proof.
  intros m.
  assert (Hd : days_in_week (sm_days m)).
  { unfold days_in_week. simpl. repeat constructor; lia. }
  split; [exact Hd|].
  destruct (schedule_of_model_rejects_iff m Hd) as (_ & Hbuilt & _).
  destruct Hbuilt as (t & Ht & Hb).
  - vm_compute. discriminate.
  - rewrite Hb. vm_compute in Ht. injection Ht as <-. reflexivity.
Defined.

(** C3 as stated fails in both directions, and the constructor on its
    own checks the time string only: a day outside the week is
    accepted; eight weekdays are rejected; an empty list of days with a
    duration of zero makes a schedule. *)
Lemma schedule_validation_counterexample :
  (let m := mk_ScheduleModel [9] "06:00" 20 true in
   named_invalid m
   /\ schedule_of_model m = Built (mk_schedule [9] (mk_time 6 0) 20 true))
  /\ (let m := mk_ScheduleModel [0; 0; 0; 0; 0; 0; 0; 0] "06:00" 20 true in
      ~ named_invalid m /\ schedule_of_model m = ValidationError)
  /\ new_schedule [] "06:00" 0 true = Some (mk_schedule [] (mk_time 6 0) 0 true).
Proof.
  split; [|split].
  - split.
    + right. right. right. unfold days_in_week. simpl.
      intros H. inversion H as [|d l Hd Hl]; subst. lia.
    + vm_compute. reflexivity.
  - split.
    + unfold named_invalid. simpl. intros [H | [H | [H | H]]].
      * vm_compute in H. discriminate.
      * lia.
      * discriminate.
      * apply H. unfold days_in_week. repeat constructor; lia.
    + vm_compute. reflexivity.
  - vm_compute. reflexivity.
Qed.

(** ** The scheduler tick *)

Lemma set_threads_same c : set_threads (threads c) c = c.
Proof. now destruct c. Qed.

Lemma check_zones_spec now zs c :
  check_zones now zs c =
  set_threads
    (threads c ++ map scheduled_run (List.filter (due now) zs)) c.
Proof.
  revert c. induction zs as [|zone rest IH]; intros c.
  - simpl. now rewrite app_nil_r, set_threads_same.
  - simpl. unfold due, matches at 1.
    destruct (enabled (schedule zone)); simpl; [|apply IH].
    destruct (should_run_today (schedule zone) now
              && is_start_time (schedule zone) now);
      destruct (active zone); simpl;
      rewrite ?andb_false_r; try apply IH.
    rewrite IH. unfold spawn, set_threads. simpl.
    now rewrite <- app_assoc.
Qed.

(** C9. A tick with the global flag off changes nothing. With the flag
    on it hands one run to a new thread for each zone, in order, whose
    schedule is enabled, whose active flag is false and whose schedule
    matches the current time, for the duration of that schedule; it
    returns with those runs not yet entered, and with the zones, the
    pins, the events and the file as they were. *)
Theorem check_and_run_dispatches (now : datetime) (c : SprinklerController) :
  check_and_run now c =
    (if global_schedule_enabled c
     then set_threads
            (threads c
               ++ map (fun z => mk_run z (duration_minutes (schedule z)) Dispatched)
                    (List.filter
                       (fun z => enabled (schedule z) && negb (active z)
                                 && matches (schedule z) now)
                       (zones c)))
            c
     else c)
  /\ zones (check_and_run now c) = zones c
  /\ gpio (check_and_run now c) = gpio c
  /\ stop_events (check_and_run now c) = stop_events c
  /\ schedule_file (check_and_run now c) = schedule_file c.
Proof.
  unfold check_and_run.
  destruct (global_schedule_enabled c); simpl; [|tauto].
  rewrite check_zones_spec. repeat split.
Qed.

(** ** Starting a run *)

Lemma find_zone_set_active zone_name zs z b :
  find_zone zone_name zs = Some z ->
  find_zone zone_name (set_active (zid z) b zs) = Some (with_active b z).
Proof.
  unfold find_zone. induction zs as [|z' rest IH]; simpl; [discriminate|].
  destruct (String.eqb (name z') zone_name) eqn:En.
  - intros [= ->]. rewrite Nat.eqb_refl. simpl. now rewrite En.
  - intros H. destruct (Nat.eqb (zid z') (zid z)); simpl; rewrite En; auto.
Qed.

(** Once the run handed out by a request has entered [run_zone], a
    further request for the zone finds it active. *)
Lemma entered_run_marks_zone zone_name m w z c c' :
  find_zone zone_name (zones c) = Some z ->
  active z = false ->
  thread_step (length (threads c)) w (snd (run_zone_manually zone_name m c))
    = Some c' ->
  fst (run_zone_manually zone_name m c) = OK_200
  /\ find_zone zone_name (zones c') = Some (with_active true z).
Proof.
  intros Hf Ha. unfold run_zone_manually. rewrite Hf, Ha. simpl.
  unfold thread_step, spawn. simpl.
  rewrite lookup_app_r by lia. rewrite Nat.sub_diag. simpl.
  unfold run_zone_enter. simpl.
  destruct (stop_events c !! name z) as [[|]|];
    try destruct (TIMEOUT_MAX <? mr_duration_minutes m * 60);
    intros [= <-]; simpl;
    (split; [reflexivity | now apply find_zone_set_active]).
Qed.

(** C1, as the code has it. While the active flag of a zone is set, a
    manual run request for it is answered with Conflict and changes
    nothing, and the runs a tick hands out are all for other zones.
    (The flag is set by the run itself on entering [run_zone], not by
    the request or the tick that handed the run out.) *)
Theorem attempt_on_active_zone_refused
    (zone_name : string) (target_zone : Zone) (c : SprinklerController) :
  find_zone zone_name (zones c) = Some target_zone ->
  active target_zone = true ->
  (forall m, run_zone_manually zone_name m c = (Conflict_409, c))
  /\ (forall now, exists new,
        threads (check_and_run now c) = (threads c ++ new)%list
        /\ Forall (fun r => r_zone r <> target_zone) new).
Proof.
  intros Hf Ha. split.
  - intros m. unfold run_zone_manually. now rewrite Hf, Ha.
  - intros now. unfold check_and_run.
    destruct (global_schedule_enabled c); simpl.
    + rewrite check_zones_spec. simpl. eexists. split; [reflexivity|].
      apply List.Forall_forall. intros r Hr.
      apply in_map_iff in Hr as (z & <- & Hz).
      apply filter_In in Hz as [_ Hdue]. simpl. intros ->.
      unfold due in Hdue. rewrite Ha, andb_false_r in Hdue. discriminate.
    + exists []. rewrite app_nil_r. split; [reflexivity | constructor].
Qed.

Lemma attempt_on_active_zone_refused_witness :
  let z := mk_zone 0 "Front Yard" 17
             (mk_schedule [0; 2; 4] (mk_time 6 0) 20 true) true in
  find_zone "Front Yard" (zones s_running) = Some z
  /\ active z = true
  /\ run_zone_manually "Front Yard" five_minutes s_running
     = (Conflict_409, s_running).
Proof.
  intros z.
  assert (Hf : find_zone "Front Yard" (zones s_running) = Some z)
    by (vm_compute; reflexivity).
  assert (Ha : active z = true) by reflexivity.
  split; [exact Hf|]. split; [exact Ha|].
  destruct (attempt_on_active_zone_refused "Front Yard" z s_running Hf Ha)
    as [Hrefused _].
  exact (Hrefused five_minutes).
Defined.

Lemma s_boot_init : SprinklerController_init Missing = Some s_boot.
Proof. vm_compute. reflexivity. Qed.

(** C1 as stated fails. Two manual run requests for the front yard,
    the second arriving before the run of the first has entered
    [run_zone], are both answered with success, and both runs are then
    in progress on the zone at once. *)
Lemma two_requests_both_run :
  reachable Missing s_running_twice
  /\ fst (post_run "Front Yard" five_minutes s_boot) = OK_200
  /\ fst (post_run "Front Yard" five_minutes s_requested) = OK_200
  /\ length (in_progress "Front Yard" s_running_twice) = 2%nat.
Proof.
  split; [|repeat split; vm_compute; reflexivity].
  exists s_boot. split; [apply s_boot_init|].
  eapply rtc_l; [apply (step_post_run "Front Yard" five_minutes)|].
  eapply rtc_l; [apply (step_post_run "Front Yard" five_minutes)|].
  eapply rtc_l; [apply (step_thread 0 Elapsed); vm_compute; reflexivity|].
  eapply rtc_l; [apply (step_thread 1 Elapsed); vm_compute; reflexivity|].
  vm_compute. apply rtc_refl.
Qed.

(** ** Leaving a run *)

Lemma set_active_flag id b zs z :
  In z (set_active id b zs) -> zid z = id -> active z = b.
Proof.
  unfold set_active. rewrite in_map_iff. intros (z0 & Hz & _) Hid.
  destruct (Nat.eqb (zid z0) id) eqn:E; subst z.
  - reflexivity.
  - apply Nat.eqb_neq in E. contradiction.
Qed.

(** A run that leaves its wait, because the time has elapsed or
    because its event was set, on a zone whose name still has an event,
    finishes with the pin of the zone low, the active flag of the zone
    cleared and the event cleared. *)
Theorem run_exit_cleans_up
    (i : nat) (w : wake) (r : run) (c : SprinklerController) :
  threads c !! i = Some r ->
  r_pc r = Waiting ->
  wait_returns w r c = true ->
  is_Some (stop_events c !! name (r_zone r)) ->
  exists c',
    thread_step i w c = Some c'
    /\ threads c' !! i = Some (with_pc Finished r)
    /\ gpio c' !! gpio_pin (r_zone r) = Some LOW
    /\ (forall z, In z (zones c') -> zid z = zid (r_zone r) -> active z = false)
    /\ stop_events c' !! name (r_zone r) = Some false.
Proof.
  intros Hi Hpc Hw [ev Hev].
  unfold thread_step. rewrite Hi, Hpc, Hw.
  unfold run_zone_exit. simpl. rewrite Hev.
  eexists. split; [reflexivity|]. simpl. repeat split.
  - apply list_lookup_insert_eq. eapply lookup_lt_Some, Hi.
  - apply lookup_insert_eq.
  - intros z Hz Hid. eapply set_active_flag; eassumption.
  - apply lookup_insert_eq.
Qed.

(** The run of the front yard, woken by the stop request. *)
Lemma run_exit_cleans_up_witness :
  let r := mk_run (mk_zone 0 "Front Yard" 17
                     (mk_schedule [0; 2; 4] (mk_time 6 0) 20 true) false)
             5 Waiting in
  threads s_stopping !! 0%nat = Some r
  /\ wait_returns Cancelled r s_stopping = true
  /\ exists c',
       thread_step 0 Cancelled s_stopping = Some c'
       /\ gpio c' !! 17 = Some LOW
       /\ stop_events c' !! "Front Yard" = Some false.
Proof.
  intros r.
  assert (Hi : threads s_stopping !! 0%nat = Some r) by (vm_compute; reflexivity).
  assert (Hw : wait_returns Cancelled r s_stopping = true)
    by (vm_compute; reflexivity).
  assert (He : is_Some (stop_events s_stopping !! name (r_zone r)))
    by (exists true; vm_compute; reflexivity).
  split; [exact Hi|]. split; [exact Hw|].
  destruct (run_exit_cleans_up 0 Cancelled r s_stopping Hi eq_refl Hw He)
    as (c' & Hstep & _ & Hpin & _ & Hev).
  exists c'. auto.
Defined.

(** The pin and the flag are dealt with before the event is looked up,
    so they are low and cleared even for a name without an event. *)
Lemma run_exit_always_stops r c :
  gpio (snd (run_zone_exit r c)) !! gpio_pin (r_zone r) = Some LOW
  /\ (forall z, In z (zones (snd (run_zone_exit r c))) ->
                zid z = zid (r_zone r) -> active z = false).
Proof.
  unfold run_zone_exit. simpl.
  destruct (stop_events c !! name (r_zone r)); simpl; split;
    try apply lookup_insert_eq;
    intros z Hz Hid; eapply set_active_flag; eassumption.
Qed.

(** C6, on the code. The claim holds for a run whose zone keeps its
    event, but the code breaks it when the zone is deleted during its
    run. The front yard is deleted while its run waits: the request is
    answered 200 and the run is still in its wait, on an event that is
    set. Whichever way the run then leaves its wait, it puts the pin
    low and then raises KeyError on the deleted event: it ends crashed,
    not finished, and never clears a cancellation signal. *)
Theorem run_after_delete_crashes :
  reachable Missing s_running
  /\ api_server.delete_zone "Front Yard" s_running = (OK_200, s_deleted)
  /\ r_pc <$> threads s_deleted !! 0%nat = Some (Detached true)
  /\ stop_events s_deleted !! "Front Yard" = None
  /\ forall w, exists c',
       thread_step 0 w s_deleted = Some c'
       /\ r_pc <$> threads c' !! 0%nat = Some Crashed
       /\ gpio c' !! 17 = Some LOW
       /\ stop_events c' !! "Front Yard" = None.
Proof.
  split; [|split; [|split; [|split]]].
  - exists s_boot. split; [apply s_boot_init|].
    eapply rtc_l; [apply (step_post_run "Front Yard" five_minutes)|].
    eapply rtc_l; [apply (step_thread 0 Elapsed); vm_compute; reflexivity|].
    vm_compute. apply rtc_refl.
  - vm_compute. reflexivity.
  - vm_compute. reflexivity.
  - vm_compute. reflexivity.
  - intros [|]; eexists; (split; [vm_compute; reflexivity|]);
      repeat split; vm_compute; reflexivity.
Qed.

(** A whole run with nothing else moving, its timeout one the lock
    accepts, ends the same way, whatever state it starts in. *)
Lemma run_zone_alone zone duration c :
  is_Some (stop_events c !! name zone) ->
  duration * 60 <= TIMEOUT_MAX ->
  exists c',
    run_zone zone duration c = (Finished, c')
    /\ gpio c' !! gpio_pin zone = Some LOW
    /\ (forall z, In z (zones c') -> zid z = zid zone -> active z = false)
    /\ stop_events c' !! name zone = Some false.
Proof.
  intros [ev Hev] Hd. apply Z.ltb_ge in Hd.
  unfold run_zone, run_zone_enter, run_zone_exit. simpl.
  rewrite Hev, Hd. destruct ev; simpl; rewrite Hev;
    (eexists; split; [reflexivity|]; simpl; repeat split;
     [apply lookup_insert_eq
     | intros z Hz Hid; eapply set_active_flag; eassumption
     | apply lookup_insert_eq]).
Qed.

(** ** Adding a zone *)

Lemma zone_exists_spec m zs :
  zone_exists m zs = true <->
  exists z, In z zs /\ (name z = zm_name m \/ gpio_pin z = zm_gpio_pin m).
Proof.
  induction zs as [|z rest IH]; simpl.
  - split; [discriminate | intros (z & [] & _)].
  - destruct (String.eqb (name z) (zm_name m)) eqn:En.
    { apply String.eqb_eq in En. split; [|reflexivity].
      intros _. exists z. auto. }
    destruct (gpio_pin z =? zm_gpio_pin m) eqn:Ep.
    { apply Z.eqb_eq in Ep. split; [|reflexivity].
      intros _. exists z. auto. }
    apply String.eqb_neq in En. apply Z.eqb_neq in Ep.
    rewrite IH. split.
    + intros (z' & Hin & H). exists z'. auto.
    + intros (z' & [-> | Hin] & H); [tauto|]. exists z'. auto.
Qed.



(** ** Removing a zone *)

Lemma find_zone_index_spec zone_name zs :
  forall k i zone,
    find_zone_index zone_name zs k = Some (i, zone) ->
    exists j,
      i = (k + j)%nat /\ zs !! j = Some zone /\ name zone = zone_name
      /\ (List.NoDup (map name zs) -> ~ In zone_name (map name (delete j zs))).
Proof.
  induction zs as [|z rest IH]; intros k i zone; simpl; [discriminate|].
  destruct (String.eqb (name z) zone_name) eqn:En.
  - intros [= <- <-]. apply String.eqb_eq in En.
    exists 0%nat. repeat split; [lia | assumption |].
    intros Hnd. apply List.NoDup_cons_iff in Hnd as [Hnotin _].
    simpl. now rewrite <- En.
  - intros Hrec. apply String.eqb_neq in En.
    destruct (IH _ _ _ Hrec) as (j & -> & Hj & Hn & Hnd).
    exists (S j). repeat split; [lia | assumption | assumption |].
    intros Hnd'. apply List.NoDup_cons_iff in Hnd' as [_ Hnd'].
    simpl. intros [H | H]; [contradiction | now apply Hnd].
Qed.


Lemma map_delete {A B} (f : A -> B) (l : list A) i :
  map f (delete i l) = delete i (map f l).
Proof.
  revert i. induction l as [|x l IH]; intros [|i]; simpl; try reflexivity.
  now rewrite IH.
Qed.





(** ** Loading the schedule file *)

Lemma load_zone_complete zd c :
  complete_entry zd ->
  exists z c',
    load_zone zd c = Returned c'
    /\ zones c' = (zones c ++ [z])%list
    /\ loads_as zd z
    /\ global_schedule_enabled c' = global_schedule_enabled c
    /\ schedule_file c' = schedule_file c.
Proof.
  intros (n & pin & sd & ds & st & dur & t & Hn & Hp & Hs & Hd & Hst & Hdur & Ht).
  unfold load_zone, new_schedule. rewrite Hs, Hd, Hst, Hdur, Ht, Hn, Hp.
  simpl. eexists. eexists. split; [reflexivity|]. simpl.
  repeat split.
  exists sd, st. simpl. auto 10.
Qed.

Lemma load_zones_complete zds :
  forall c,
    Forall complete_entry zds ->
    exists new c',
      load_zones zds c = Returned c'
      /\ zones c' = (zones c ++ new)%list
      /\ Forall2 loads_as zds new
      /\ global_schedule_enabled c' = global_schedule_enabled c
      /\ schedule_file c' = schedule_file c.
Proof.
  induction zds as [|zd rest IH]; intros c Hall.
  - exists [], c. simpl. rewrite app_nil_r. repeat split. constructor.
  - apply Forall_cons in Hall as [Hzd Hrest].
    destruct (load_zone_complete zd c Hzd) as (z & c1 & H1 & Hz1 & Hl & Hg1 & Hf1).
    destruct (IH c1 Hrest) as (new & c' & H2 & Hz2 & Hall2 & Hg2 & Hf2).
    exists (z :: new), c'. simpl. rewrite H1. split; [exact H2|].
    split; [|split; [|split]].
    + rewrite Hz2, Hz1, <- app_assoc. reflexivity.
    + constructor; assumption.
    + congruence.
    + congruence.
Qed.

Lemma load_schedule_complete c data zds :
  schedule_file c = Doc data ->
  d_zones data = Some zds ->
  Forall complete_entry zds ->
  exists c',
    load_schedule c = Some c'
    /\ schedule_file c' = Doc data
    /\ global_schedule_enabled c'
       = default true (d_global_schedule_enabled data)
    /\ Forall2 loads_as zds (zones c').
Proof.
  intros Hf Hz Hall. unfold load_schedule. rewrite Hf, Hz.
  match goal with |- context [load_zones zds ?c1] =>
    destruct (load_zones_complete zds c1 Hall)
      as (new & c' & Hl & Hzs & Hall2 & Hg & Hfile)
  end.
  rewrite Hl. exists c'. split; [reflexivity|].
  simpl in Hzs, Hg, Hfile. rewrite Hzs, Hg, Hfile. auto.
Qed.

(** C10. A schedule file whose document has its zones, each with every
    key but possibly the [enabled] ones and with a start time that
    parses, is loaded and kept as it is: each zone is what its entry
    says, the global flag and the flag of each schedule are the ones
    the document gives, and an absent one is true. *)
Theorem load_defaults_absent_enabled
    (c : SprinklerController) (data : doc) (zds : list zone_doc) :
  schedule_file c = Doc data ->
  d_zones data = Some zds ->
  Forall complete_entry zds ->
  exists c',
    load_schedule c = Some c'
    /\ schedule_file c' = Doc data
    /\ Forall2 loads_as zds (zones c')
    /\ global_schedule_enabled c'
       = default true (d_global_schedule_enabled data)
    /\ (d_global_schedule_enabled data = None ->
        global_schedule_enabled c' = true)
    /\ Forall2
         (fun zd z =>
            forall sd, zd_schedule zd = Some sd -> sd_enabled sd = None ->
                       enabled (schedule z) = true)
         zds (zones c').
Proof.
  intros Hf Hz Hall.
  destruct (load_schedule_complete c data zds Hf Hz Hall)
    as (c' & Hl & Hfile & Hg & Hall2).
  exists c'. repeat split; try assumption.
  - intros Hnone. now rewrite Hg, Hnone.
  - eapply Forall2_impl; [exact Hall2|].
    intros zd z (sd & st & _ & _ & Hs & _ & _ & _ & _ & Hen & _) sd' Hs' Hnone.
    rewrite Hs in Hs'. injection Hs' as <-. now rewrite Hen, Hnone.
Qed.

Lemma load_defaults_absent_enabled_witness :
  schedule_file s_no_flags = Doc (mk_doc None (Some [lawn 5]))
  /\ Forall complete_entry [lawn 5]
  /\ exists c',
       load_schedule s_no_flags = Some c'
       /\ schedule_file c' = Doc (mk_doc None (Some [lawn 5]))
       /\ global_schedule_enabled c' = true
       /\ map (fun z => enabled (schedule z)) (zones c') = [true].
Proof.
  assert (Hf : schedule_file s_no_flags = Doc (mk_doc None (Some [lawn 5])))
    by reflexivity.
  assert (Hall : Forall complete_entry [lawn 5]).
  { constructor; [|constructor].
    exists "Lawn", 5, (mk_schedule_doc (Some [0]) (Some "06:00") (Some 10) None),
      [0], "06:00", 10, (mk_time 6 0).
    repeat split. }
  split; [exact Hf|]. split; [exact Hall|].
  destruct (load_defaults_absent_enabled s_no_flags _ _ Hf eq_refl Hall)
    as (c' & Hl & Hfile & _ & _ & Hg & Hen).
  exists c'. split; [exact Hl|]. split; [exact Hfile|].
  split; [apply Hg; reflexivity|].
  inversion Hen as [|zd z zds' zs' Hz Hrest]; subst.
  inversion Hrest; subst. simpl. f_equal.
  apply (Hz _ eq_refl eq_refl).
Defined.

(** ** Saving and loading *)

Lemma Zone_to_dict_complete z :
  valid_time (start_time (schedule z)) -> complete_entry (Zone_to_dict z).
Proof.
  intros Hv. unfold complete_entry, Zone_to_dict, SprinklerSchedule_to_dict.
  exists (name z), (gpio_pin z). eexists. exists (days (schedule z)).
  exists (strftime_HM (start_time (schedule z))).
  exists (duration_minutes (schedule z)), (start_time (schedule z)).
  simpl. repeat split. now apply strptime_strftime.
Qed.

Lemma loads_as_to_dict z z' :
  valid_time (start_time (schedule z)) ->
  loads_as (Zone_to_dict z) z' ->
  persisted_fields z' = persisted_fields z /\ active z' = false.
Proof.
  intros Hv (sd & st & Hn & Hp & Hs & Hd & Hst & Ht & Hdur & Hen & Ha).
  simpl in Hn, Hp, Hs. injection Hs as <-. simpl in *.
  injection Hn as Hn. injection Hp as Hp. injection Hd as Hd.
  injection Hst as <-. injection Hdur as Hdur.
  rewrite (strptime_strftime _ Hv) in Ht. injection Ht as Ht.
  split; [|assumption]. unfold persisted_fields. congruence.
Qed.

Lemma loads_as_to_dict_all zs : forall new,
  Forall (fun z => valid_time (start_time (schedule z))) zs ->
  Forall2 loads_as (map Zone_to_dict zs) new ->
  map persisted_fields new = map persisted_fields zs
  /\ Forall (fun z => active z = false) new.
Proof.
  induction zs as [|z rest IH]; intros new Hv Hall; simpl in Hall.
  - inversion Hall; subst. split; [reflexivity | constructor].
  - inversion Hall as [|zd z' zds new' Hz Hrest]; subst.
    apply Forall_cons in Hv as [Hvz Hvrest].
    destruct (loads_as_to_dict z z' Hvz Hz) as [Hfields Hact].
    destruct (IH new' Hvrest Hrest) as [IH1 IH2].
    split; [simpl; congruence | constructor; assumption].
Qed.

(** C7. For a controller whose start times are valid times, saving the
    schedule and loading it gives back the same zones in the same order
    with the same name, pin, days, start time, duration and enabled
    flag, and the same global flag; every zone is inactive after the
    load. *)
Theorem save_then_load_round_trip (c : SprinklerController) :
  Forall (fun z => valid_time (start_time (schedule z))) (zones c) ->
  exists c',
    load_schedule (save_schedule c) = Some c'
    /\ map persisted_fields (zones c') = map persisted_fields (zones c)
    /\ global_schedule_enabled c' = global_schedule_enabled c
    /\ Forall (fun z => active z = false) (zones c')
    /\ schedule_file c' = schedule_file (save_schedule c).
Proof.
  intros Hv.
  destruct (load_schedule_complete (save_schedule c)
              (mk_doc (Some (global_schedule_enabled c))
                 (Some (map Zone_to_dict (zones c))))
              (map Zone_to_dict (zones c)) eq_refl eq_refl)
    as (c' & Hl & Hfile & Hg & Hall).
  { apply List.Forall_map. eapply List.Forall_impl; [|exact Hv].
    intros z. apply Zone_to_dict_complete. }
  destruct (loads_as_to_dict_all _ _ Hv Hall) as [Hfields Hact].
  exists c'. repeat split; assumption.
Qed.

(** The controller with the front yard running, saved and loaded. *)
Lemma save_then_load_round_trip_witness :
  Forall (fun z => valid_time (start_time (schedule z))) (zones s_running)
  /\ map active (zones s_running) = [true; false]
  /\ exists c',
       load_schedule (save_schedule s_running) = Some c'
       /\ map persisted_fields (zones c') = map persisted_fields (zones s_running)
       /\ Forall (fun z => active z = false) (zones c').
Proof.
  assert (Hv : Forall (fun z => valid_time (start_time (schedule z)))
                 (zones s_running)).
  { vm_compute zones. repeat constructor; simpl; lia. }
  split; [exact Hv|]. split; [vm_compute; reflexivity|].
  destruct (save_then_load_round_trip s_running Hv)
    as (c' & Hl & Hfields & _ & Hact & _).
  exists c'. auto.
Defined.

(** ** The default schedule *)

Lemma new_schedule_front :
  new_schedule [0; 2; 4] "06:00" 20 true
  = Some (mk_schedule [0; 2; 4] (mk_time 6 0) 20 true).
Proof. vm_compute. reflexivity. Qed.

Lemma new_schedule_back :
  new_schedule [1; 3; 5] "06:30" 15 true
  = Some (mk_schedule [1; 3; 5] (mk_time 6 30) 15 true).
Proof. vm_compute. reflexivity. Qed.

(** C8. Loading when the schedule file is missing, or holds text that
    is not JSON, leaves the controller with exactly two zones, both
    inactive: "Front Yard" on pin 17 with days 0, 2, 4 at 06:00 for 20
    minutes, and "Back Yard" on pin 27 with days 1, 3, 5 at 06:30 for 15
    minutes, both enabled; and it writes them to the schedule file at
    once, with the global flag as it stood. *)
Theorem load_without_store_gives_default (c : SprinklerController) :
  schedule_file c = Missing \/ schedule_file c = Corrupt ->
  exists c',
    load_schedule c = Some c'
    /\ map persisted_fields (zones c') =
         [ ("Front Yard", 17, [0; 2; 4], mk_time 6 0, 20, true);
           ("Back Yard", 27, [1; 3; 5], mk_time 6 30, 15, true) ]
    /\ Forall (fun z => active z = false) (zones c')
    /\ global_schedule_enabled c' = global_schedule_enabled c
    /\ schedule_file c' =
         Doc (mk_doc (Some (global_schedule_enabled c))
                (Some
                   [ mk_zone_doc (Some "Front Yard") (Some 17)
                       (Some (mk_schedule_doc (Some [0; 2; 4]) (Some "06:00")
                                (Some 20) (Some true)));
                     mk_zone_doc (Some "Back Yard") (Some 27)
                       (Some (mk_schedule_doc (Some [1; 3; 5]) (Some "06:30")
                                (Some 15) (Some true))) ])).
Proof.
  intros Hfile.
  assert (Hl : load_schedule c = create_default_schedule c).
  { unfold load_schedule. now destruct Hfile as [-> | ->]. }
  rewrite Hl. unfold create_default_schedule.
  rewrite new_schedule_front, new_schedule_back. simpl.
  eexists. split; [reflexivity|]. simpl.
  repeat split; repeat constructor.
Qed.

Lemma load_without_store_gives_default_witness :
  (schedule_file blank = Missing \/ schedule_file blank = Corrupt)
  /\ exists c',
       load_schedule blank = Some c'
       /\ map persisted_fields (zones c') =
            [ ("Front Yard", 17, [0; 2; 4], mk_time 6 0, 20, true);
              ("Back Yard", 27, [1; 3; 5], mk_time 6 30, 15, true) ]
       /\ global_schedule_enabled c' = true.
Proof.
  assert (Hf : schedule_file blank = Missing \/ schedule_file blank = Corrupt)
    by (left; reflexivity).
  split; [exact Hf|].
  destruct (load_without_store_gives_default blank Hf)
    as (c' & Hl & Hfields & _ & Hg & _).
  exists c'. auto.
Defined.

(** * Further properties of the code *)

(** ** Schedules and their dictionaries *)

Lemma strftime_matches_pattern_all :
  forallb
    (fun h =>
       forallb
         (fun m =>
            start_time_pattern
              (strftime_HM (mk_time (Z.of_nat h) (Z.of_nat m))))
         (seq 0 60))
    (seq 0 24) = true.
Proof. vm_compute. reflexivity. Qed.

Lemma strftime_matches_pattern t :
  valid_time t -> start_time_pattern (strftime_HM t) = true.
Proof.
  destruct t as [h m]. unfold valid_time. simpl. intros [Hh Hm].
  pose proof strftime_matches_pattern_all as H.
  rewrite forallb_forall in H.
  assert (Hin : In (Z.to_nat h) (seq 0 24)) by (apply in_seq; lia).
  specialize (H _ Hin). rewrite forallb_forall in H.
  assert (Hin' : In (Z.to_nat m) (seq 0 60)) by (apply in_seq; lia).
  specialize (H _ Hin'). now rewrite !Z2Nat.id in H by lia.
Qed.

(** X1. A schedule is built again from the fields of its own
    dictionary: the start time that [to_dict] writes is read back as
    the same time, and it is a string the request models accept. *)
Theorem schedule_to_dict_rebuilds (s : SprinklerSchedule) :
  valid_time (start_time s) ->
  exists st,
    SprinklerSchedule_to_dict s
    = mk_schedule_doc (Some (days s)) (Some st)
        (Some (duration_minutes s)) (Some (enabled s))
    /\ new_schedule (days s) st (duration_minutes s) (enabled s) = Some s
    /\ start_time_pattern st = true.
Proof.
  intros Hv. exists (strftime_HM (start_time s)).
  split; [reflexivity|]. split.
  - unfold new_schedule. rewrite (strptime_strftime _ Hv). now destruct s.
  - now apply strftime_matches_pattern.
Qed.

Lemma schedule_to_dict_rebuilds_witness :
  let s := mk_schedule [1; 3; 5] (mk_time 6 30) 15 true in
  valid_time (start_time s)
  /\ new_schedule [1; 3; 5] "06:30" 15 true = Some s.
Proof.
  intros s.
  assert (Hv : valid_time (start_time s)) by (unfold valid_time; simpl; lia).
  split; [exact Hv|].
  destruct (schedule_to_dict_rebuilds s Hv) as (st & Hd & Hnew & _).
  injection Hd as <-. exact Hnew.
Defined.

(** X2. A schedule none of whose days is a weekday number, as the
    request model lets through, matches at no instant. *)
Theorem days_outside_week_never_match (s : SprinklerSchedule) (now : datetime) :
  valid_datetime now ->
  Forall (fun d => d < 0 \/ 6 < d) (days s) ->
  matches s now = false.
Proof.
  intros [Hw _] Hall. unfold matches.
  destruct (should_run_today s now) eqn:Hrun; [|reflexivity].
  apply should_run_today_In in Hrun.
  rewrite List.Forall_forall in Hall. specialize (Hall _ Hrun). lia.
Qed.

Lemma days_outside_week_never_match_witness :
  let s := mk_schedule [9] (mk_time 6 0) 20 true in
  let now := mk_datetime 2 (mk_time 6 0) in
  valid_datetime now
  /\ Forall (fun d => d < 0 \/ 6 < d) (days s)
  /\ matches s now = false.
Proof.
  intros s now.
  assert (Hn : valid_datetime now)
    by (unfold valid_datetime, valid_time; simpl; lia).
  assert (Hd : Forall (fun d => d < 0 \/ 6 < d) (days s))
    by (repeat constructor; lia).
  split; [exact Hn|]. split; [exact Hd|].
  exact (days_outside_week_never_match s now Hn Hd).
Defined.

(** ** Finding a zone by name *)

Lemma find_zone_index_none zone_name zs k :
  find_zone_index zone_name zs k = None <-> ~ In zone_name (map name zs).
Proof.
  revert k. induction zs as [|z rest IH]; intros k; simpl.
  - tauto.
  - destruct (String.eqb (name z) zone_name) eqn:En.
    + apply String.eqb_eq in En. split; [discriminate | tauto].
    + apply String.eqb_neq in En. rewrite IH. tauto.
Qed.

Lemma find_zone_none zone_name zs :
  find_zone zone_name zs = None <-> ~ In zone_name (map name zs).
Proof.
  unfold find_zone. induction zs as [|z rest IH]; simpl.
  - tauto.
  - destruct (String.eqb (name z) zone_name) eqn:En.
    + apply String.eqb_eq in En. split; [discriminate | tauto].
    + apply String.eqb_neq in En. rewrite IH. tauto.
Qed.

Lemma find_zone_index_find_zone zone_name zs k i zone :
  find_zone_index zone_name zs k = Some (i, zone) ->
  find_zone zone_name zs = Some zone.
Proof.
  unfold find_zone. revert k.
  induction zs as [|z rest IH]; intros k; simpl; [discriminate|].
  destruct (String.eqb (name z) zone_name).
  - now intros [= _ ->].
  - apply IH.
Qed.

Lemma find_zone_find_zone_index zone_name zs k zone :
  find_zone zone_name zs = Some zone ->
  exists i, find_zone_index zone_name zs k = Some (i, zone).
Proof.
  unfold find_zone. revert k.
  induction zs as [|z rest IH]; intros k; simpl; [discriminate|].
  destruct (String.eqb (name z) zone_name).
  - intros [= ->]. eauto.
  - apply IH.
Qed.

Lemma zone_listed_In zone_name c :
  api_server.zone_listed zone_name c = true <-> In zone_name (map name (zones c)).
Proof.
  unfold api_server.zone_listed. rewrite existsb_exists, in_map_iff.
  split; intros (z & H1 & H2).
  - apply String.eqb_eq in H2. eauto.
  - exists z. split; [assumption|]. now apply String.eqb_eq.
Qed.

Lemma map_insert_same {A B} (f : A -> B) (l : list A) i x y :
  l !! i = Some x -> f y = f x -> map f (<[i := y]> l) = map f l.
Proof.
  revert i. induction l as [|a l IH]; intros [|i]; simpl; try discriminate.
  - intros [= ->] Hf. now rewrite Hf.
  - intros Hi Hf. f_equal. now apply IH.
Qed.

(** ** Replacing a schedule *)

(** X3. Replacing the schedule of a listed zone, with a start time
    that parses, changes the schedule of the first zone of that name
    and nothing else: every name, pin and active flag, the run threads,
    the pins and the events stay as they are, so a run in progress is
    not interrupted; the new list is written to the schedule file. *)
Theorem update_zone_schedule_replaces
    (zone_name : string) (ds : list Z) (st : string) (dur : Z) (en : bool)
    (i : nat) (zone : Zone) (t : dt_time) (c : SprinklerController) :
  find_zone_index zone_name (zones c) 0%nat = Some (i, zone) ->
  strptime_HM st = Some t ->
  exists c',
    controller.update_zone_schedule zone_name ds st dur en c = Some c'
    /\ zones c' = <[i := with_schedule (mk_schedule ds t dur en) zone]> (zones c)
    /\ zones c' !! i = Some (with_schedule (mk_schedule ds t dur en) zone)
    /\ map name (zones c') = map name (zones c)
    /\ map gpio_pin (zones c') = map gpio_pin (zones c)
    /\ map active (zones c') = map active (zones c)
    /\ threads c' = threads c
    /\ gpio c' = gpio c
    /\ stop_events c' = stop_events c
    /\ schedule_file c' =
         Doc (mk_doc (Some (global_schedule_enabled c))
                (Some (map Zone_to_dict (zones c')))).
Proof.
  intros Hfind Ht.
  destruct (find_zone_index_spec _ _ _ _ _ Hfind) as (j & Hi & Hj & _).
  simpl in Hi. subst j.
  unfold controller.update_zone_schedule, new_schedule. rewrite Hfind, Ht.
  eexists. split; [reflexivity|]. simpl.
  split; [reflexivity|]. split.
  { apply list_lookup_insert_eq. eapply lookup_lt_Some, Hj. }
  repeat split; eapply map_insert_same; try exact Hj; reflexivity.
Qed.

(** The running front yard is given the schedule of a Sunday evening. *)
Lemma update_zone_schedule_replaces_witness :
  let z := mk_zone 0 "Front Yard" 17
             (mk_schedule [0; 2; 4] (mk_time 6 0) 20 true) true in
  find_zone_index "Front Yard" (zones s_running) 0%nat = Some (0%nat, z)
  /\ strptime_HM "19:45" = Some (mk_time 19 45)
  /\ exists c',
       controller.update_zone_schedule "Front Yard" [6] "19:45" 30 true s_running
       = Some c'
       /\ map active (zones c') = [true; false]
       /\ threads c' = threads s_running.
Proof.
  intros z.
  assert (Hf : find_zone_index "Front Yard" (zones s_running) 0%nat
               = Some (0%nat, z)) by (vm_compute; reflexivity).
  assert (Ht : strptime_HM "19:45" = Some (mk_time 19 45))
    by (vm_compute; reflexivity).
  split; [exact Hf|]. split; [exact Ht|].
  destruct (update_zone_schedule_replaces "Front Yard" [6] "19:45" 30 true
              0 z (mk_time 19 45) s_running Hf Ht)
    as (c' & Hu & _ & _ & _ & _ & Hact & Hthr & _).
  exists c'. split; [exact Hu|]. split; [|exact Hthr].
  rewrite Hact. vm_compute. reflexivity.
Defined.

(** X4. A request to replace a schedule, its body valid, is answered
    404 with nothing changed when no zone has the name, and 200
    otherwise; it is never answered 400, since a start time that passes
    the pattern always parses. An unknown name leaves the controller
    untouched for any body. *)
Theorem put_schedule_found_or_not
    (zone_name : string) (m : api_server.ZoneUpdateModel)
    (c : SprinklerController) :
  ScheduleModel_valid (api_server.zu_schedule m) = true ->
  (~ In zone_name (map name (zones c)) ->
   api_server.put_schedule zone_name m c = (NotFound_404, c))
  /\ (In zone_name (map name (zones c)) ->
      fst (api_server.put_schedule zone_name m c) = OK_200)
  /\ (~ In zone_name (map name (zones c)) ->
      forall ds st dur en,
        controller.update_zone_schedule zone_name ds st dur en c = Some c).
Proof.
  intros Hv. unfold api_server.put_schedule, api_server.update_zone_schedule.
  rewrite Hv.
  pose proof (zone_listed_In zone_name c) as Hl.
  split; [|split].
  - intros Hnot. destruct (api_server.zone_listed zone_name c); [|reflexivity].
    destruct Hnot. now apply Hl.
  - intros Hin. apply Hl in Hin. rewrite Hin. simpl.
    apply ScheduleModel_valid_spec in Hv as (_ & Hp & _).
    destruct (start_time_pattern_parses _ Hp) as (t & Ht & _).
    unfold controller.update_zone_schedule, new_schedule. rewrite Ht.
    now destruct (find_zone_index zone_name (zones c) 0) as [[i zone]|].
  - intros Hnot ds st dur en. unfold controller.update_zone_schedule.
    apply (find_zone_index_none zone_name (zones c) 0%nat) in Hnot.
    now rewrite Hnot.
Qed.

Lemma put_schedule_found_or_not_witness :
  let m := api_server.mk_ZoneUpdateModel
             (mk_ScheduleModel [6] "7:05" 30 true) in
  ScheduleModel_valid (api_server.zu_schedule m) = true
  /\ api_server.put_schedule "Orchard" m s_boot = (NotFound_404, s_boot)
  /\ fst (api_server.put_schedule "Back Yard" m s_boot) = OK_200.
Proof.
  intros m.
  assert (Hv : ScheduleModel_valid (api_server.zu_schedule m) = true)
    by (vm_compute; reflexivity).
  split; [exact Hv|].
  destruct (put_schedule_found_or_not "Orchard" m s_boot Hv) as (Hnot & _ & _).
  destruct (put_schedule_found_or_not "Back Yard" m s_boot Hv) as (_ & Hin & _).
  split.
  - apply Hnot. vm_compute. intros [H | [H | []]]; discriminate H.
  - apply Hin. vm_compute. right. left. reflexivity.
Defined.

(** ** Switching schedules on and off *)

Lemma named_once zs : forall j zone zone_name,
  zs !! j = Some zone ->
  name zone = zone_name ->
  List.NoDup (map name zs) ->
  forall y z, In z (<[j := y]> zs) -> name z = zone_name -> z = y.
Proof.
  induction zs as [|a rest IH]; intros [|j] zone n Hj Hn Hnd y z Hin Hz;
    simpl in *; try discriminate.
  - injection Hj as ->. apply List.NoDup_cons_iff in Hnd as [Hnot _].
    destruct Hin as [<- | Hin]; [reflexivity|].
    destruct Hnot. rewrite Hn, <- Hz. now apply in_map.
  - apply List.NoDup_cons_iff in Hnd as [Hnot Hnd].
    destruct Hin as [<- | Hin].
    + destruct Hnot. rewrite Hz, <- Hn. apply in_map.
      apply list_elem_of_In. eapply list_elem_of_lookup_2, Hj.
    + eapply IH; eassumption.
Qed.

(** X5. After the schedule of a zone is switched off, with the names of
    the listed zones distinct, every zone of that name has its schedule
    disabled and no tick hands out a run for the name; the names and
    the active flags of the zones are as before. *)
Theorem disabled_zone_not_dispatched
    (zone_name : string) (now : datetime) (c : SprinklerController) :
  In zone_name (map name (zones c)) ->
  List.NoDup (map name (zones c)) ->
  map name (zones (controller.disable_zone_schedule zone_name c))
  = map name (zones c)
  /\ map active (zones (controller.disable_zone_schedule zone_name c))
     = map active (zones c)
  /\ (forall z,
        In z (zones (controller.disable_zone_schedule zone_name c)) ->
        name z = zone_name -> enabled (schedule z) = false)
  /\ exists new,
       threads (check_and_run now (controller.disable_zone_schedule zone_name c))
       = (threads c ++ new)%list
       /\ Forall (fun r => name (r_zone r) <> zone_name) new.
Proof.
  intros Hin Hnd. unfold controller.disable_zone_schedule.
  destruct (find_zone_index zone_name (zones c) 0) as [[i zone]|] eqn:Hfind.
  2:{ apply find_zone_index_none in Hfind. contradiction. }
  destruct (find_zone_index_spec _ _ _ _ _ Hfind) as (j & Hi & Hj & Hn & _).
  simpl in Hi. subst j. simpl.
  assert (Hoff : forall z,
            In z (<[i := with_schedule (with_enabled false (schedule zone)) zone]>
                    (zones c)) ->
            name z = zone_name -> enabled (schedule z) = false).
  { intros z Hz Hname.
    rewrite (named_once _ _ _ _ Hj Hn Hnd _ _ Hz Hname). reflexivity. }
  split; [eapply map_insert_same; [exact Hj | reflexivity]|].
  split; [eapply map_insert_same; [exact Hj | reflexivity]|].
  split; [exact Hoff|].
  unfold check_and_run. simpl.
  destruct (global_schedule_enabled c); simpl.
  - rewrite check_zones_spec. simpl. eexists. split; [reflexivity|].
    apply List.Forall_forall. intros r Hr.
    apply in_map_iff in Hr as (z & <- & Hz).
    apply filter_In in Hz as [Hz Hdue]. simpl. intros Hname.
    unfold due in Hdue. now rewrite (Hoff z Hz Hname) in Hdue.
  - exists []. rewrite app_nil_r. split; [reflexivity | constructor].
Qed.

(** The front yard is switched off before its Monday start. *)
Lemma disabled_zone_not_dispatched_witness :
  let monday_six := mk_datetime 0 (mk_time 6 0) in
  In "Front Yard" (map name (zones s_boot))
  /\ List.NoDup (map name (zones s_boot))
  /\ length (threads (check_and_run monday_six s_boot)) = 1%nat
  /\ Forall (fun r => name (r_zone r) <> "Front Yard")
       (threads (check_and_run monday_six
                   (controller.disable_zone_schedule "Front Yard" s_boot))).
Proof.
  intros monday_six.
  assert (Hin : In "Front Yard" (map name (zones s_boot)))
    by (vm_compute; left; reflexivity).
  assert (Hnd : List.NoDup (map name (zones s_boot))).
  { vm_compute. repeat constructor; simpl; intuition discriminate. }
  split; [exact Hin|]. split; [exact Hnd|]. split; [vm_compute; reflexivity|].
  destruct (disabled_zone_not_dispatched "Front Yard" monday_six s_boot Hin Hnd)
    as (_ & _ & _ & new & Hthr & Hnew).
  rewrite Hthr. exact Hnew.
Defined.

Lemma find_zone_index_insert zone_name zs : forall k i zone y,
  find_zone_index zone_name zs k = Some (i, zone) ->
  name y = zone_name ->
  find_zone_index zone_name (<[(i - k)%nat := y]> zs) k = Some (i, y).
Proof.
  induction zs as [|a rest IH]; intros k i zone y; simpl; [discriminate|].
  destruct (String.eqb (name a) zone_name) eqn:En.
  - intros [= <- <-] Hy. rewrite Nat.sub_diag. simpl.
    apply String.eqb_eq in Hy. now rewrite Hy.
  - intros Hrec Hy.
    destruct (find_zone_index_spec _ _ _ _ _ Hrec) as (j & -> & _).
    replace (S k + j - k)%nat with (S j) by lia. simpl. rewrite En.
    specialize (IH (S k) (S k + j)%nat zone y Hrec Hy).
    now replace (S k + j - S k)%nat with j in IH by lia.
Qed.

(** X6. Switching the schedule of a listed zone off and on again, when
    it was on, leaves the list of zones exactly as it was, and the
    schedule file holds that list. *)
Theorem disable_then_enable_restores
    (zone_name : string) (i : nat) (zone : Zone) (c : SprinklerController) :
  find_zone_index zone_name (zones c) 0%nat = Some (i, zone) ->
  enabled (schedule zone) = true ->
  zones (controller.enable_zone_schedule zone_name
           (controller.disable_zone_schedule zone_name c))
  = zones c
  /\ schedule_file (controller.enable_zone_schedule zone_name
                      (controller.disable_zone_schedule zone_name c))
     = Doc (mk_doc (Some (global_schedule_enabled c))
              (Some (map Zone_to_dict (zones c)))).
Proof.
  intros Hfind Hen.
  destruct (find_zone_index_spec _ _ _ _ _ Hfind) as (j & Hi & Hj & Hn & _).
  simpl in Hi. subst j.
  pose proof (find_zone_index_insert _ _ _ _ _
                (with_schedule (with_enabled false (schedule zone)) zone)
                Hfind Hn) as Hfind'.
  rewrite Nat.sub_0_r in Hfind'.
  unfold controller.enable_zone_schedule, controller.disable_zone_schedule.
  rewrite Hfind. simpl. rewrite Hfind'. simpl.
  rewrite list_insert_insert_eq.
  assert (Hz : with_schedule (with_enabled true (with_enabled false (schedule zone)))
                 (with_schedule (with_enabled false (schedule zone)) zone)
               = zone).
  { destruct zone as [id n p [ds t dur en] a]. simpl in *. now subst en. }
  rewrite Hz, (list_insert_id _ _ _ Hj). split; reflexivity.
Qed.

Lemma disable_then_enable_restores_witness :
  let z := mk_zone 1 "Back Yard" 27
             (mk_schedule [1; 3; 5] (mk_time 6 30) 15 true) false in
  find_zone_index "Back Yard" (zones s_boot) 0%nat = Some (1%nat, z)
  /\ map (fun z => enabled (schedule z))
       (zones (controller.disable_zone_schedule "Back Yard" s_boot))
     = [true; false]
  /\ zones (controller.enable_zone_schedule "Back Yard"
              (controller.disable_zone_schedule "Back Yard" s_boot))
     = zones s_boot.
Proof.
  intros z.
  assert (Hf : find_zone_index "Back Yard" (zones s_boot) 0%nat
               = Some (1%nat, z)) by (vm_compute; reflexivity).
  split; [exact Hf|]. split; [vm_compute; reflexivity|].
  exact (proj1 (disable_then_enable_restores "Back Yard" 1 z s_boot Hf eq_refl)).
Defined.

(** X7. With the global schedule switched off a tick changes nothing,
    whatever the time, while a manual run of an idle zone is still
    accepted and handed to a thread; the flag is written to the
    schedule file. *)
Theorem global_disable_stops_ticks_only
    (zone_name : string) (target_zone : Zone) (m : ManualRunModel)
    (c : SprinklerController) :
  find_zone zone_name (zones c) = Some target_zone ->
  active target_zone = false ->
  (forall now,
     check_and_run now (controller.disable_global_schedule c)
     = controller.disable_global_schedule c)
  /\ run_zone_manually zone_name m (controller.disable_global_schedule c)
     = (OK_200,
        spawn target_zone (mr_duration_minutes m)
          (controller.disable_global_schedule c))
  /\ schedule_file (controller.disable_global_schedule c)
     = Doc (mk_doc (Some false) (Some (map Zone_to_dict (zones c)))).
Proof.
  intros Hf Ha. split; [|split].
  - intros now. reflexivity.
  - unfold run_zone_manually. simpl. now rewrite Hf, Ha.
  - reflexivity.
Qed.

Lemma global_disable_stops_ticks_only_witness :
  let z := mk_zone 0 "Front Yard" 17
             (mk_schedule [0; 2; 4] (mk_time 6 0) 20 true) false in
  find_zone "Front Yard" (zones s_boot) = Some z
  /\ active z = false
  /\ threads (check_and_run (mk_datetime 0 (mk_time 6 0))
                (controller.disable_global_schedule s_boot)) = []
  /\ fst (run_zone_manually "Front Yard" five_minutes
            (controller.disable_global_schedule s_boot)) = OK_200.
Proof.
  intros z.
  assert (Hf : find_zone "Front Yard" (zones s_boot) = Some z)
    by (vm_compute; reflexivity).
  split; [exact Hf|]. split; [reflexivity|].
  destruct (global_disable_stops_ticks_only "Front Yard" z five_minutes
              s_boot Hf eq_refl) as (Htick & Hrun & _).
  split.
  - rewrite Htick. vm_compute. reflexivity.
  - rewrite Hrun. reflexivity.
Defined.

(** ** Shutting down *)

Lemma map_fields_set_active id b zs :
  map persisted_fields (set_active id b zs) = map persisted_fields zs.
Proof.
  unfold set_active. rewrite map_map. apply map_ext.
  intros z. now destruct (Nat.eqb (zid z) id).
Qed.

Lemma active_after_set_active id zs z :
  In z (set_active id false zs) -> active z = true ->
  In z zs /\ zid z <> id.
Proof.
  unfold set_active. rewrite in_map_iff. intros (z0 & Hz & Hin) Ha.
  destruct (Nat.eqb (zid z0) id) eqn:E; subst z.
  - discriminate.
  - apply Nat.eqb_neq in E. auto.
Qed.

(** The loop of [cleanup] on a list of zones that all have an event. *)
Lemma cleanup_zones_returns zs : forall c,
  (forall z, In z zs -> is_Some (stop_events c !! name z)) ->
  exists c',
    controller.cleanup_zones zs c = Returned c'
    /\ (forall z', In z' (zones c') -> active z' = true ->
                   In z' (zones c)
                   /\ (forall a, In a zs -> active a = true -> zid a <> zid z'))
    /\ map persisted_fields (zones c') = map persisted_fields (zones c)
    /\ (forall n, is_Some (stop_events c !! n) -> is_Some (stop_events c' !! n))
    /\ (forall n, stop_events c !! n = Some true -> stop_events c' !! n = Some true)
    /\ (forall z, In z zs -> stop_events c' !! name z = Some true)
    /\ is_running c' = is_running c
    /\ threads c' = threads c
    /\ schedule_file c' = schedule_file c
    /\ global_schedule_enabled c' = global_schedule_enabled c.
Proof.
  induction zs as [|a rest IH]; intros c Hev.
  - exists c. simpl. repeat split; auto. intros z [].
  - simpl. destruct (Hev a (or_introl eq_refl)) as [ev Ha]. rewrite Ha.
    match goal with |- context [controller.cleanup_zones rest ?c2] =>
      destruct (IH c2) as (c' & Hret & Hact & Hfields & Hsome & Hset & Hall
                           & Hrun & Hthr & Hfile & Hg)
    end.
    { intros z Hz. specialize (Hev z (or_intror Hz)).
      destruct (active a); simpl;
        (destruct (decide (name a = name z)) as [-> | Hne];
         [rewrite lookup_insert_eq; eauto
         | rewrite lookup_insert_ne by exact Hne; exact Hev]). }
    exists c'. split; [exact Hret|].
    assert (Hins : forall n,
              is_Some (stop_events c !! n) ->
              is_Some (<[name a := true]> (stop_events c) !! n)).
    { intros n Hn. destruct (decide (name a = n)) as [-> | Hne];
        [rewrite lookup_insert_eq; eauto
        | now rewrite lookup_insert_ne by exact Hne]. }
    assert (Hkeep : forall n,
              stop_events c !! n = Some true ->
              <[name a := true]> (stop_events c) !! n = Some true).
    { intros n Hn. destruct (decide (name a = n)) as [-> | Hne];
        [apply lookup_insert_eq
        | now rewrite lookup_insert_ne by exact Hne]. }
    destruct (active a) eqn:Eact; simpl in *.
    + repeat split; auto.
      * destruct (Hact z' H H0) as [Hin _].
        now apply (active_after_set_active _ _ _ Hin H0).
      * intros a' [<- | Ha'] Hact'.
        -- destruct (Hact z' H H0) as [Hin _].
           destruct (active_after_set_active _ _ _ Hin H0) as [_ Hne].
           congruence.
        -- destruct (Hact z' H H0) as [_ Hrest]. now apply Hrest.
      * now rewrite Hfields, map_fields_set_active.
      * intros z [<- | Hz]; [|now apply Hall].
        apply Hset, lookup_insert_eq.
    + repeat split; auto.
      * now apply (Hact z' H H0).
      * intros a' [<- | Ha'] Hact'; [congruence|].
        destruct (Hact z' H H0) as [_ Hrest]. now apply Hrest.
      * intros z [<- | Hz]; [|now apply Hall].
        apply Hset, lookup_insert_eq.
Qed.



Lemma cleanup_zones_raises zs : forall c,
  (exists z, In z zs /\ stop_events c !! name z = None) ->
  exists c',
    controller.cleanup_zones zs c = Raised c'
    /\ is_running c' = is_running c
    /\ (forall pin, is_Some (gpio c !! pin) -> is_Some (gpio c' !! pin)).
Proof.
  induction zs as [|a rest IH]; intros c (z & Hz & Hnone).
  - destruct Hz.
  - simpl. destruct (stop_events c !! name a) as [ev|] eqn:Ha.
    2:{ exists c. auto. }
    assert (Hrest : In z rest).
    { destruct Hz as [<- | Hz]; [congruence | exact Hz]. }
    assert (Hne : name a <> name z) by congruence.
    match goal with |- context [controller.cleanup_zones rest ?c2] =>
      destruct (IH c2) as (c' & Hret & Hrun & Hpins)
    end.
    { exists z. split; [exact Hrest|].
      destruct (active a); simpl; now rewrite lookup_insert_ne by exact Hne. }
    exists c'. split; [exact Hret|].
    destruct (active a); simpl in *; split; auto.
    intros pin Hpin. apply Hpins.
    destruct (decide (gpio_pin a = pin)) as [-> | Hp];
      [rewrite lookup_insert_eq; eauto
      | now rewrite lookup_insert_ne by exact Hp].
Qed.

(** X9. When some listed zone has no event, [cleanup] raises: the
    controller is already marked as not running, but [GPIO.cleanup] is
    not reached and every pin that was set up stays set up. *)
Theorem cleanup_raises_without_event (c : SprinklerController) :
  (exists z, In z (zones c) /\ stop_events c !! name z = None) ->
  exists c',
    controller.cleanup c = Raised c'
    /\ is_running c' = false
    /\ (forall pin, is_Some (gpio c !! pin) -> is_Some (gpio c' !! pin)).
Proof.
  intros Hex. unfold controller.cleanup.
  destruct (cleanup_zones_raises (zones c) (set_is_running false c) Hex)
    as (c' & Hret & Hrun & Hpins).
  rewrite Hret. exists c'. auto.
Qed.

(** Two zones of one name, one of them removed, and then a shutdown. *)
Lemma cleanup_raises_without_event_witness :
  let c := snd (remove_zone "Lawn" s_two_lawns) in
  (exists z, In z (zones c) /\ stop_events c !! name z = None)
  /\ exists c',
       controller.cleanup c = Raised c'
       /\ is_Some (gpio c' !! 6).
Proof.
  intros c.
  assert (Hex : exists z, In z (zones c) /\ stop_events c !! name z = None).
  { exists (mk_zone 1 "Lawn" 6 (mk_schedule [0] (mk_time 6 0) 10 true) false).
    split; [vm_compute; left; reflexivity | vm_compute; reflexivity]. }
  split; [exact Hex|].
  destruct (cleanup_raises_without_event c Hex) as (c' & Hc & _ & Hpins).
  exists c'. split; [exact Hc|].
  apply Hpins. exists false. vm_compute. reflexivity.
Defined.

(** ** Deleting a zone *)

(** X10. A request to delete a zone is never answered 404: for a name
    that no zone has, the answer is 400 and nothing changes; for the
    name of a listed zone that has an event, it is 200 and the first
    zone of that name is gone. *)
Theorem delete_zone_never_not_found (zone_name : string) (c : SprinklerController) :
  fst (api_server.delete_zone zone_name c) <> NotFound_404
  /\ (~ In zone_name (map name (zones c)) ->
      api_server.delete_zone zone_name c = (BadRequest_400, c))
  /\ (In zone_name (map name (zones c)) ->
      is_Some (stop_events c !! zone_name) ->
      fst (api_server.delete_zone zone_name c) = OK_200
      /\ length (zones (snd (api_server.delete_zone zone_name c)))
         = pred (length (zones c))).
Proof.
  unfold api_server.delete_zone. split; [|split].
  - destruct (remove_zone zone_name c) as [[[|]|] c']; discriminate.
  - intros Hnot. unfold remove_zone.
    apply (find_zone_index_none zone_name (zones c) 0%nat) in Hnot.
    now rewrite Hnot.
  - intros Hin [ev Hev]. unfold remove_zone.
    destruct (find_zone_index zone_name (zones c) 0) as [[i zone]|] eqn:Hfind.
    2:{ apply find_zone_index_none in Hfind. contradiction. }
    destruct (find_zone_index_spec _ _ _ _ _ Hfind) as (j & Hi & Hj & _).
    simpl in Hi. subst j.
    assert (Hlen : forall b,
              length (delete i (set_active (zid zone) b (zones c)))
              = pred (length (zones c))).
    { intros b. rewrite length_delete.
      - unfold set_active. rewrite length_map. lia.
      - unfold set_active. apply lookup_lt_is_Some.
        rewrite length_map. eapply lookup_lt_Some, Hj. }
    assert (Hlen' : length (delete i (zones c)) = pred (length (zones c))).
    { rewrite length_delete by eauto. lia. }
    unfold signal_and_stop.
    destruct (active zone); rewrite ?Hev; simpl;
      rewrite ?lookup_insert_eq, ?Hev; simpl; auto.
Qed.

Lemma delete_zone_never_not_found_witness :
  api_server.delete_zone "Orchard" s_boot = (BadRequest_400, s_boot)
  /\ fst (api_server.delete_zone "Back Yard" s_boot) = OK_200.
Proof.
  destruct (delete_zone_never_not_found "Orchard" s_boot) as (_ & Hnot & _).
  destruct (delete_zone_never_not_found "Back Yard" s_boot) as (_ & _ & Hin).
  split.
  - apply Hnot. vm_compute. intros [H | [H | []]]; discriminate H.
  - apply Hin.
    + vm_compute. right. left. reflexivity.
    + exists false. vm_compute. reflexivity.
Defined.

(** ** A run from request to end *)

Lemma find_zone_name zone_name zs z :
  find_zone zone_name zs = Some z -> name z = zone_name.
Proof.
  unfold find_zone. intros H. apply find_some in H as [_ H].
  now apply String.eqb_eq.
Qed.

Lemma spawned_run_enters w zone duration c :
  is_Some (stop_events c !! name zone) ->
  duration * 60 <= TIMEOUT_MAX ->
  thread_step (length (threads c)) w (spawn zone duration c)
  = Some (set_threads (threads c ++ [mk_run zone duration Waiting])
            (start_zone zone c)).
Proof.
  intros [ev Hev] Hd. apply Z.ltb_ge in Hd. unfold thread_step, spawn. simpl.
  rewrite lookup_app_r by lia. rewrite Nat.sub_diag. simpl.
  unfold run_zone_enter. simpl. rewrite Hev, Hd.
  destruct ev; simpl;
    rewrite <- (Nat.add_0_r (length (threads c))), insert_app_r;
    reflexivity.
Qed.

Lemma waiting_run_leaves w ts zone duration c :
  threads c = (ts ++ [mk_run zone duration Waiting])%list ->
  is_Some (stop_events c !! name zone) ->
  wait_returns w (mk_run zone duration Waiting) c = true ->
  thread_step (length ts) w c
  = Some (set_threads (ts ++ [mk_run zone duration Finished])
            (set_stop_events (<[name zone := false]> (stop_events c))
               (stop_zone zone c))).
Proof.
  intros Hts [ev Hev] Hw. unfold thread_step. rewrite Hts.
  rewrite lookup_app_r by lia. rewrite Nat.sub_diag. simpl. rewrite Hw.
  unfold run_zone_exit. simpl. rewrite Hev. simpl. rewrite Hts.
  rewrite <- (Nat.add_0_r (length ts)), insert_app_r.
  reflexivity.
Qed.

Lemma set_active_off_on id zs z :
  find_zone (name z) zs = Some z -> active z = false -> id = zid z ->
  find_zone (name z) (set_active id false (set_active id true zs)) = Some z.
Proof.
  intros Hf Ha ->.
  pose proof (find_zone_set_active _ _ _ true Hf) as H1.
  pose proof (find_zone_set_active _ _ _ false H1) as H2.
  simpl in H2. rewrite H2. f_equal. destruct z. simpl in *. now subst.
Qed.

(** X11. The course of a manual run of an idle zone that has an event,
    for a duration whose timeout the lock accepts, as that of every
    validated request is. The request is accepted; once the run has
    entered, the pin is high and a further request is answered with
    Conflict and changes nothing; once the time has elapsed, the pin is
    low, the zone is found as it was before the request, and a new
    request is accepted again. *)
Theorem manual_run_course
    (zone_name : string) (z : Zone) (m : ManualRunModel)
    (c : SprinklerController) :
  find_zone zone_name (zones c) = Some z ->
  active z = false ->
  is_Some (stop_events c !! zone_name) ->
  mr_duration_minutes m * 60 <= TIMEOUT_MAX ->
  exists c1 c2,
    run_zone_manually zone_name m c
    = (OK_200, spawn z (mr_duration_minutes m) c)
    /\ thread_step (length (threads c)) Elapsed
         (spawn z (mr_duration_minutes m) c) = Some c1
    /\ gpio c1 !! gpio_pin z = Some HIGH
    /\ (forall m', run_zone_manually zone_name m' c1 = (Conflict_409, c1))
    /\ thread_step (length (threads c)) Elapsed c1 = Some c2
    /\ gpio c2 !! gpio_pin z = Some LOW
    /\ find_zone zone_name (zones c2) = Some z
    /\ stop_events c2 !! zone_name = Some false
    /\ fst (run_zone_manually zone_name m c2) = OK_200.
Proof.
  intros Hf Ha Hev Hd.
  pose proof (find_zone_name _ _ _ Hf) as Hn. subst zone_name.
  eexists. eexists.
  split; [unfold run_zone_manually; now rewrite Hf, Ha|].
  split; [now apply spawned_run_enters|].
  split; [apply lookup_insert_eq|].
  split.
  { intros m'. unfold run_zone_manually. simpl.
    now rewrite (find_zone_set_active _ _ _ true Hf). }
  split; [now apply waiting_run_leaves|].
  split; [apply lookup_insert_eq|].
  assert (Hback : find_zone (name z)
                    (set_active (zid z) false
                       (set_active (zid z) true (zones c))) = Some z)
    by now apply set_active_off_on.
  split; [exact Hback|].
  split; [apply lookup_insert_eq|].
  unfold run_zone_manually. simpl. now rewrite Hback, Ha.
Qed.

Lemma manual_run_course_witness :
  let z := mk_zone 1 "Back Yard" 27
             (mk_schedule [1; 3; 5] (mk_time 6 30) 15 true) false in
  find_zone "Back Yard" (zones s_boot) = Some z
  /\ is_Some (stop_events s_boot !! "Back Yard")
  /\ exists c1 c2,
       thread_step 0 Elapsed (spawn z 5 s_boot) = Some c1
       /\ gpio c1 !! 27 = Some HIGH
       /\ thread_step 0 Elapsed c1 = Some c2
       /\ gpio c2 !! 27 = Some LOW.
Proof.
  intros z.
  assert (Hf : find_zone "Back Yard" (zones s_boot) = Some z)
    by (vm_compute; reflexivity).
  assert (He : is_Some (stop_events s_boot !! "Back Yard"))
    by (exists false; vm_compute; reflexivity).
  assert (Hd : mr_duration_minutes five_minutes * 60 <= TIMEOUT_MAX)
    by (vm_compute; discriminate).
  split; [exact Hf|]. split; [exact He|].
  destruct (manual_run_course "Back Yard" z five_minutes s_boot Hf eq_refl
              He Hd)
    as (c1 & c2 & _ & H1 & Hhigh & _ & H2 & Hlow & _).
  exists c1, c2. auto.
Defined.

(** X12. Stopping a run by request, for a run of a duration whose
    timeout the lock accepts (at most [TIMEOUT_MAX] seconds, as for
    every validated duration). A stop request is answered with Conflict
    while the zone is idle. Once the run of the zone has entered, the
    request is accepted and sets the event; the run can then leave its
    wait as cancelled, after which the pin is low, the zone is idle and
    the event is cleared again, so that a later run is not cancelled by
    it. *)
Theorem manual_stop_course
    (zone_name : string) (z : Zone) (duration : Z) (c : SprinklerController) :
  find_zone zone_name (zones c) = Some z ->
  active z = false ->
  is_Some (stop_events c !! zone_name) ->
  duration * 60 <= TIMEOUT_MAX ->
  stop_zone_manually zone_name c = (Conflict_409, c)
  /\ exists c1 c2 c3,
       thread_step (length (threads c)) Elapsed (spawn z duration c) = Some c1
       /\ stop_zone_manually zone_name c1 = (OK_200, c2)
       /\ stop_events c2 !! zone_name = Some true
       /\ gpio c2 !! gpio_pin z = Some HIGH
       /\ thread_step (length (threads c)) Cancelled c2 = Some c3
       /\ gpio c3 !! gpio_pin z = Some LOW
       /\ find_zone zone_name (zones c3) = Some z
       /\ stop_events c3 !! zone_name = Some false
       /\ stop_zone_manually zone_name c3 = (Conflict_409, c3).
Proof.
  intros Hf Ha Hev Hd.
  pose proof (find_zone_name _ _ _ Hf) as Hn. subst zone_name.
  split; [unfold stop_zone_manually; now rewrite Hf, Ha|].
  destruct Hev as [ev Hev].
  eexists. eexists. eexists.
  split; [apply spawned_run_enters; eauto|].
  split.
  { unfold stop_zone_manually. simpl.
    rewrite (find_zone_set_active _ _ _ true Hf). simpl. now rewrite Hev. }
  split; [apply lookup_insert_eq|].
  split; [apply lookup_insert_eq|].
  split.
  { apply waiting_run_leaves; simpl.
    - reflexivity.
    - rewrite lookup_insert_eq. eauto.
    - now rewrite lookup_insert_eq. }
  split; [apply lookup_insert_eq|].
  assert (Hback : find_zone (name z)
                    (set_active (zid z) false
                       (set_active (zid z) true (zones c))) = Some z)
    by now apply set_active_off_on.
  split; [exact Hback|].
  split; [apply lookup_insert_eq|].
  unfold stop_zone_manually. simpl. now rewrite Hback, Ha.
Qed.

Lemma manual_stop_course_witness :
  let z := mk_zone 0 "Front Yard" 17
             (mk_schedule [0; 2; 4] (mk_time 6 0) 20 true) false in
  find_zone "Front Yard" (zones s_boot) = Some z
  /\ is_Some (stop_events s_boot !! "Front Yard")
  /\ stop_zone_manually "Front Yard" s_boot = (Conflict_409, s_boot)
  /\ fst (stop_zone_manually "Front Yard" s_running) = OK_200.
Proof.
  intros z.
  assert (Hf : find_zone "Front Yard" (zones s_boot) = Some z)
    by (vm_compute; reflexivity).
  assert (He : is_Some (stop_events s_boot !! "Front Yard"))
    by (exists false; vm_compute; reflexivity).
  assert (Hd : 5 * 60 <= TIMEOUT_MAX) by (vm_compute; discriminate).
  split; [exact Hf|]. split; [exact He|].
  destruct (manual_stop_course "Front Yard" z 5 s_boot Hf eq_refl He Hd)
    as (Hidle & c1 & c2 & c3 & H1 & H2 & _).
  split; [exact Hidle|].
  assert (Hrun : Some s_running = Some c1)
    by (rewrite <- H1; vm_compute; reflexivity).
  injection Hrun as ->. now rewrite H2.
Defined.

(** ** Creating a zone and asking for it *)

Lemma zone_exists_false m zs :
  zone_exists m zs = false ->
  forall z, In z zs -> name z <> zm_name m /\ gpio_pin z <> zm_gpio_pin m.
Proof.
  intros Hex z Hin. split; intros Heq.
  - assert (zone_exists m zs = true) by (apply zone_exists_spec; eauto).
    congruence.
  - assert (zone_exists m zs = true) by (apply zone_exists_spec; eauto).
    congruence.
Qed.

Lemma find_zone_app_new zone_name zs z :
  ~ In zone_name (map name zs) -> name z = zone_name ->
  find_zone zone_name (zs ++ [z]) = Some z.
Proof.
  unfold find_zone. intros Hnot Hn.
  induction zs as [|a rest IH]; simpl in *.
  - apply String.eqb_eq in Hn. now rewrite Hn.
  - destruct (String.eqb (name a) zone_name) eqn:En.
    + apply String.eqb_eq in En. tauto.
    + apply IH. tauto.
Qed.

(** X13. A zone that was created is reported under its name as the
    request gave it, inactive, at the end of the list of zones; its
    start time is reported in the padded form HH:MM, whichever form
    the request used. *)
Theorem created_zone_is_reported
    (m : ZoneModel) (c c' : SprinklerController) :
  post_zones m c = (Created_201, c') ->
  exists t,
    strptime_HM (sm_start_time (zm_schedule m)) = Some t
    /\ api_server.get_zone (zm_name m) c'
       = (OK_200,
          Some (api_server.mk_ZoneStatusModel (zm_name m) (zm_gpio_pin m) false
                  (mk_schedule_doc (Some (sm_days (zm_schedule m)))
                     (Some (strftime_HM t))
                     (Some (sm_duration_minutes (zm_schedule m)))
                     (Some (sm_enabled (zm_schedule m))))))
    /\ api_server.get_zones c'
       = (api_server.get_zones c
            ++ [api_server.mk_ZoneStatusModel (zm_name m) (zm_gpio_pin m) false
                  (mk_schedule_doc (Some (sm_days (zm_schedule m)))
                     (Some (strftime_HM t))
                     (Some (sm_duration_minutes (zm_schedule m)))
                     (Some (sm_enabled (zm_schedule m))))])%list.
Proof.
  unfold post_zones, create_zone, add_zone, new_schedule.
  destruct (ZoneModel_valid m); [|discriminate].
  destruct (zone_exists m (zones c)) eqn:Hex; [discriminate|].
  destruct (strptime_HM (sm_start_time (zm_schedule m))) as [t|];
    [|discriminate].
  simpl. intros [= <-]. exists t. split; [reflexivity|].
  unfold api_server.get_zone, api_server.get_zones. simpl.
  split.
  - rewrite find_zone_app_new; [reflexivity | | reflexivity].
    rewrite in_map_iff. intros (z & Hn & Hin).
    now destruct (zone_exists_false m _ Hex z Hin).
  - now rewrite map_app.
Qed.

Lemma created_zone_is_reported_witness :
  let m := mk_ZoneModel "Side Garden" 22
             (mk_ScheduleModel [0; 3; 6] "7:00" 10 true) in
  post_zones m s_boot = (Created_201, snd (post_zones m s_boot))
  /\ (snd (api_server.get_zone "Side Garden" (snd (post_zones m s_boot)))
        ≫= fun v => sd_start_time (api_server.zs_schedule v))
     = Some "07:00".
Proof.
  intros m.
  assert (Hp : post_zones m s_boot = (Created_201, snd (post_zones m s_boot)))
    by (vm_compute; reflexivity).
  split; [exact Hp|].
  destruct (created_zone_is_reported m s_boot _ Hp) as (t & Ht & Hget & _).
  subst m. simpl zm_name in Hget. rewrite Hget. simpl.
  vm_compute in Ht. injection Ht as <-. reflexivity.
Defined.

(** X14. [add_zone] itself checks neither the name nor the pin. With a
    start time that parses it always appends the zone, sets its pin up
    low, whatever the pin was driving, and binds a new cleared event to
    the name; on a name already listed, the names of the list are no
    longer distinct afterwards. *)
Theorem add_zone_checks_nothing
    (n : string) (pin : Z) (ds : list Z) (st : string) (dur : Z) (en : bool)
    (t : dt_time) (c : SprinklerController) :
  strptime_HM st = Some t ->
  exists c',
    add_zone n pin ds st dur en c = Some c'
    /\ zones c' =
         (zones c ++ [mk_zone (next_zid c) n pin (mk_schedule ds t dur en) false])%list
    /\ gpio c' !! pin = Some LOW
    /\ stop_events c' !! n = Some false
    /\ (In n (map name (zones c)) -> ~ List.NoDup (map name (zones c'))).
Proof.
  intros Ht. unfold add_zone, new_schedule. rewrite Ht. simpl.
  eexists. split; [reflexivity|]. simpl.
  split; [reflexivity|].
  split; [apply lookup_insert_eq|].
  split; [apply lookup_insert_eq|].
  intros Hin Hnd. rewrite map_app in Hnd. simpl in Hnd.
  apply List.NoDup_remove_2 in Hnd. rewrite app_nil_r in Hnd. contradiction.
Qed.

(** A second front yard on the pin of the running one. *)
Lemma add_zone_checks_nothing_witness :
  strptime_HM "08:00" = Some (mk_time 8 0)
  /\ gpio s_running !! 17 = Some HIGH
  /\ exists c',
       add_zone "Front Yard" 17 [6] "08:00" 10 true s_running = Some c'
       /\ gpio c' !! 17 = Some LOW
       /\ map name (zones c') = ["Front Yard"; "Back Yard"; "Front Yard"].
Proof.
  assert (Ht : strptime_HM "08:00" = Some (mk_time 8 0))
    by (vm_compute; reflexivity).
  split; [exact Ht|]. split; [vm_compute; reflexivity|].
  destruct (add_zone_checks_nothing "Front Yard" 17 [6] "08:00" 10 true
              (mk_time 8 0) s_running Ht)
    as (c' & Hadd & Hz & Hpin & _).
  exists c'. split; [exact Hadd|]. split; [exact Hpin|].
  rewrite Hz, map_app. vm_compute. reflexivity.
Defined.

(** ** Loading a file that is not complete *)

Lemma load_zone_cases zd c :
  (load_zone zd c = Raised c /\ ~ complete_entry zd)
  \/ (exists c', load_zone zd c = Returned c' /\ complete_entry zd
                 /\ global_schedule_enabled c' = global_schedule_enabled c).
Proof.
  unfold load_zone, new_schedule.
  destruct zd as [n pin sd]. simpl.
  destruct sd as [[ds st dur en]|]; simpl.
  2:{ left. split; [reflexivity|].
      intros (? & ? & ? & ? & ? & ? & ? & _ & _ & H & _). discriminate. }
  destruct ds as [ds|]; simpl.
  2:{ left. split; [reflexivity|].
      intros (? & ? & ? & ? & ? & ? & ? & _ & _ & H & H' & _).
      injection H as <-. discriminate. }
  destruct st as [st|]; simpl.
  2:{ left. split; [reflexivity|].
      intros (? & ? & ? & ? & ? & ? & ? & _ & _ & H & _ & H' & _).
      injection H as <-. discriminate. }
  destruct dur as [dur|]; simpl.
  2:{ left. split; [reflexivity|].
      intros (? & ? & ? & ? & ? & ? & ? & _ & _ & H & _ & _ & H' & _).
      injection H as <-. discriminate. }
  destruct (strptime_HM st) as [t|] eqn:Ht; simpl.
  2:{ left. split; [reflexivity|].
      intros (? & ? & ? & ? & ? & ? & ? & _ & _ & H & _ & H' & _ & H'').
      injection H as <-. simpl in H'. injection H' as <-. congruence. }
  destruct n as [n|]; simpl.
  2:{ left. split; [reflexivity|].
      intros (? & ? & ? & ? & ? & ? & ? & H & _). discriminate. }
  destruct pin as [pin|]; simpl.
  2:{ left. split; [reflexivity|].
      intros (? & ? & ? & ? & ? & ? & ? & _ & H & _). discriminate. }
  right. eexists. split; [reflexivity|]. split; [|reflexivity].
  exists n, pin. eexists. exists ds, st, dur, t. simpl. auto 10.
Qed.

Lemma load_zones_cases zds : forall c,
  (exists c', load_zones zds c = Returned c' /\ Forall complete_entry zds)
  \/ (exists c', load_zones zds c = Raised c' /\ ~ Forall complete_entry zds
                 /\ global_schedule_enabled c' = global_schedule_enabled c).
Proof.
  induction zds as [|zd rest IH]; intros c; simpl.
  - left. exists c. split; [reflexivity | constructor].
  - destruct (load_zone_cases zd c) as [[-> Hnot] | (c1 & -> & Hzd & Hg)].
    + right. exists c. split; [reflexivity|]. split; [|reflexivity].
      intros Hall. apply Forall_cons in Hall as [Hzd _]. contradiction.
    + destruct (IH c1) as [(c' & -> & Hall) | (c' & -> & Hnot & Hg')].
      * left. exists c'. split; [reflexivity | now constructor].
      * right. exists c'. split; [reflexivity|]. split; [|congruence].
        intros Hall. apply Forall_cons in Hall as [_ Hall]. contradiction.
Qed.

Lemma create_default_schedule_gives c :
  exists c',
    create_default_schedule c = Some c'
    /\ map persisted_fields (zones c') = default_fields
    /\ Forall (fun z => active z = false) (zones c')
    /\ global_schedule_enabled c' = global_schedule_enabled c
    /\ schedule_file c' =
         Doc (mk_doc (Some (global_schedule_enabled c)) (Some default_entries))
    /\ in_sync c' /\ valid_times c'.
Proof.
  unfold create_default_schedule.
  rewrite new_schedule_front, new_schedule_back. simpl.
  eexists. split; [reflexivity|]. simpl.
  repeat split; repeat constructor; simpl; lia.
Qed.

(** X15. A schedule file that is a document but has no list of zones,
    or has one entry with a key missing or with a start time that does
    not parse, is not loaded in part: the controller gets the two
    default zones, the other entries of the file are dropped, and the
    file is overwritten with the default zones, under the global flag
    the document gave (true if it gave none). *)
Theorem incomplete_file_replaced_by_default
    (c : SprinklerController) (data : doc) :
  schedule_file c = Doc data ->
  (d_zones data = None
   \/ exists zds, d_zones data = Some zds /\ ~ Forall complete_entry zds) ->
  exists c',
    load_schedule c = Some c'
    /\ map persisted_fields (zones c') = default_fields
    /\ global_schedule_enabled c'
       = default true (d_global_schedule_enabled data)
    /\ schedule_file c' =
         Doc (mk_doc (Some (default true (d_global_schedule_enabled data)))
                (Some default_entries)).
Proof.
  intros Hf Hbad. unfold load_schedule. rewrite Hf.
  destruct Hbad as [-> | (zds & -> & Hnot)].
  - match goal with |- context [create_default_schedule ?c1] =>
      destruct (create_default_schedule_gives c1)
        as (c' & -> & Hfields & _ & Hg & Hfile & _)
    end.
    exists c'. simpl in *. auto.
  - match goal with |- context [load_zones zds ?c1] =>
      destruct (load_zones_cases zds c1)
        as [(c2 & _ & Hall) | (c2 & -> & _ & Hg2)]
    end; [contradiction|].
    destruct (create_default_schedule_gives c2)
      as (c' & -> & Hfields & _ & Hg & Hfile & _).
    exists c'. simpl in *. rewrite Hg, Hfile, Hg2. auto.
Qed.

Lemma incomplete_file_replaced_by_default_witness :
  let data :=
    mk_doc (Some false)
      (Some [lawn 5;
             mk_zone_doc (Some "Hedge") None
               (Some (mk_schedule_doc (Some [1]) (Some "07:00") (Some 5) None))]) in
  schedule_file s_bad_entry = Doc data
  /\ exists c',
       load_schedule s_bad_entry = Some c'
       /\ map name (zones c') = ["Front Yard"; "Back Yard"]
       /\ global_schedule_enabled c' = false.
Proof.
  intros data.
  assert (Hf : schedule_file s_bad_entry = Doc data) by reflexivity.
  split; [exact Hf|].
  destruct (incomplete_file_replaced_by_default s_bad_entry data Hf)
    as (c' & Hl & Hfields & Hg & _).
  { right. eexists. split; [reflexivity|]. intros Hall.
    apply Forall_cons in Hall as [_ Hall].
    apply Forall_cons in Hall as [Hhedge _].
    destruct Hhedge as (? & ? & ? & ? & ? & ? & ? & _ & Hpin & _).
    discriminate Hpin. }
  exists c'. split; [exact Hl|]. split; [|exact Hg].
  assert (Hn : map name (zones c')
               = map (fun f => fst (fst (fst (fst (fst f)))))
                   (map persisted_fields (zones c')))
    by (rewrite map_map; reflexivity).
  rewrite Hn, Hfields. reflexivity.
Defined.

(** ** Loading again *)

Lemma saved_reloads c :
  in_sync c -> valid_times c ->
  exists c',
    load_schedule c = Some c'
    /\ map persisted_fields (zones c') = map persisted_fields (zones c)
    /\ global_schedule_enabled c' = global_schedule_enabled c
    /\ schedule_file c' = schedule_file c
    /\ Forall (fun z => active z = false) (zones c').
Proof.
  intros Hsync Hv.
  destruct (load_schedule_complete c _ (map Zone_to_dict (zones c)) Hsync eq_refl)
    as (c' & Hl & Hfile & Hg & Hall).
  { apply List.Forall_map. eapply List.Forall_impl; [|exact Hv].
    intros z. apply Zone_to_dict_complete. }
  destruct (loads_as_to_dict_all _ _ Hv Hall) as [Hfields Hact].
  exists c'. rewrite Hfile, Hsync. auto.
Qed.

Lemma loads_as_fields zd z1 z2 :
  loads_as zd z1 -> loads_as zd z2 -> persisted_fields z1 = persisted_fields z2.
Proof.
  intros (sd1 & st1 & Hn1 & Hp1 & Hs1 & Hd1 & Hst1 & Ht1 & Hdur1 & Hen1 & _)
         (sd2 & st2 & Hn2 & Hp2 & Hs2 & Hd2 & Hst2 & Ht2 & Hdur2 & Hen2 & _).
  rewrite Hs1 in Hs2. injection Hs2 as <-.
  rewrite Hst1 in Hst2. injection Hst2 as <-.
  unfold persisted_fields. congruence.
Qed.

Lemma loads_as_fields_all zds : forall l1 l2,
  Forall2 loads_as zds l1 -> Forall2 loads_as zds l2 ->
  map persisted_fields l1 = map persisted_fields l2.
Proof.
  induction zds as [|zd rest IH]; intros l1 l2 H1 H2;
    inversion H1; inversion H2; subst; simpl; [reflexivity|].
  f_equal; [eapply loads_as_fields; eassumption | now apply IH].
Qed.

(** X16. Loading is idempotent. Whatever the schedule file holds,
    loading it a second time right after the first gives the same zones
    with the same fields and the same global flag, and leaves the file
    as the first load left it. *)
Theorem load_twice_same (c c' : SprinklerController) :
  load_schedule c = Some c' ->
  exists c'',
    load_schedule c' = Some c''
    /\ map persisted_fields (zones c'') = map persisted_fields (zones c')
    /\ global_schedule_enabled c'' = global_schedule_enabled c'
    /\ schedule_file c'' = schedule_file c'.
Proof.
  intros Hl.
  assert (Hdefault : forall c0, create_default_schedule c0 = Some c' ->
            exists c'',
              load_schedule c' = Some c''
              /\ map persisted_fields (zones c'') = map persisted_fields (zones c')
              /\ global_schedule_enabled c'' = global_schedule_enabled c'
              /\ schedule_file c'' = schedule_file c').
  { intros c0 Hc0.
    destruct (create_default_schedule_gives c0)
      as (c1 & Hc1 & _ & _ & _ & _ & Hsync & Hv).
    rewrite Hc0 in Hc1. injection Hc1 as <-.
    destruct (saved_reloads c' Hsync Hv) as (c'' & H1 & H2 & H3 & H4 & _).
    exists c''. auto. }
  unfold load_schedule in Hl.
  destruct (schedule_file c) as [| |data] eqn:Hf; try (eapply Hdefault, Hl).
  destruct (d_zones data) as [zds|] eqn:Hz; [|eapply Hdefault, Hl].
  match type of Hl with context [load_zones zds ?c1] =>
    destruct (load_zones_cases zds c1)
      as [(c2 & Hret & Hall) | (c2 & Hret & _)];
    [destruct (load_zones_complete zds c1 Hall)
       as (new & c2' & Hret' & Hzones & Hloads & Hg & Hfile) |]
  end.
  - rewrite Hret in Hret'. injection Hret' as <-.
    rewrite Hret in Hl. injection Hl as <-.
    simpl in Hzones, Hg, Hfile.
    assert (Hf' : schedule_file c2 = Doc data) by congruence.
    destruct (load_schedule_complete c2 data zds Hf' Hz Hall)
      as (c'' & Hl2 & Hfile2 & Hg2 & Hloads2).
    exists c''. split; [exact Hl2|]. split; [|split; congruence].
    rewrite Hzones in *. eapply loads_as_fields_all; eassumption.
  - rewrite Hret in Hl. eapply Hdefault, Hl.
Qed.

Lemma load_twice_same_witness :
  exists c' c'',
    load_schedule s_bad_entry = Some c'
    /\ load_schedule c' = Some c''
    /\ map persisted_fields (zones c'') = map persisted_fields (zones c').
Proof.
  destruct (load_schedule s_bad_entry) as [c'|] eqn:Hl.
  - destruct (load_twice_same s_bad_entry c' Hl) as (c'' & Hl2 & Hfields & _).
    exists c', c''. auto.
  - vm_compute in Hl. discriminate Hl.
Defined.

(** ** What every request keeps *)

Lemma same_fields l1 : forall l2,
  map persisted_fields l1 = map persisted_fields l2 ->
  map name l1 = map name l2
  /\ map gpio_pin l1 = map gpio_pin l2
  /\ map Zone_to_dict l1 = map Zone_to_dict l2
  /\ (Forall (fun z => valid_time (start_time (schedule z))) l2 ->
      Forall (fun z => valid_time (start_time (schedule z))) l1).
Proof.
  induction l1 as [|a l1 IH]; intros [|b l2] H; simpl in H; try discriminate.
  - repeat split. constructor.
  - injection H as H1 H2 H3 H4 H5 H6 Hrest.
    destruct (IH _ Hrest) as (Hn & Hp & Hd & Hv).
    simpl. repeat split; try congruence.
    + rewrite Hd. f_equal.
      unfold Zone_to_dict, SprinklerSchedule_to_dict. congruence.
    + intros Hall. apply Forall_cons in Hall as [Hb Hall].
      constructor; [congruence | auto].
Qed.

Lemma kept_frame c c' :
  kept c ->
  map persisted_fields (zones c') = map persisted_fields (zones c) ->
  (forall n, is_Some (stop_events c !! n) -> is_Some (stop_events c' !! n)) ->
  schedule_file c' = schedule_file c ->
  global_schedule_enabled c' = global_schedule_enabled c ->
  kept c'.
Proof.
  intros ((Hnames & Hpins & Hev) & Hsync & Hv) Hfields Hsome Hfile Hg.
  destruct (same_fields _ _ Hfields) as (Hn & Hp & Hd & Hvalid).
  split; [split; [|split]|split].
  - now rewrite Hn.
  - now rewrite Hp.
  - intros z Hz. apply Hsome.
    assert (Hin : In (name z) (map name (zones c)))
      by (rewrite <- Hn; now apply in_map).
    apply in_map_iff in Hin as (z0 & Hz0 & Hin). rewrite <- Hz0. now apply Hev.
  - unfold in_sync in *. now rewrite Hfile, Hg, Hd.
  - now apply Hvalid.
Qed.

Lemma kept_saved x :
  well_kept x -> valid_times x -> kept (save_schedule x).
Proof. intros Hw Hv. split; [exact Hw | split; [reflexivity | exact Hv]]. Qed.

Lemma NoDup_snoc {A} (l : list A) a :
  List.NoDup l -> ~ In a l -> List.NoDup (l ++ [a]).
Proof.
  induction l as [|b l IH]; simpl; intros Hnd Hnot.
  - constructor; [tauto | constructor].
  - apply List.NoDup_cons_iff in Hnd as [Hb Hnd]. constructor.
    + rewrite in_app_iff. simpl. intros [H | [H | []]]; [tauto|].
      subst. tauto.
    + apply IH; tauto.
Qed.

Lemma In_delete {A} (l : list A) i x : In x (delete i l) -> In x l.
Proof.
  revert i. induction l as [|a l IH]; intros [|i]; simpl; auto.
  intros [H | H]; eauto.
Qed.

Lemma NoDup_delete {A} (l : list A) i :
  List.NoDup l -> List.NoDup (delete i l).
Proof.
  revert i. induction l as [|a l IH]; intros [|i] Hnd; simpl; auto.
  - now apply List.NoDup_cons_iff in Hnd as [_ Hnd].
  - apply List.NoDup_cons_iff in Hnd as [Ha Hnd]. constructor; auto.
    intros Hin. apply Ha. eapply In_delete, Hin.
Qed.

Lemma insert_present (m : gmap string bool) k v n :
  is_Some (m !! n) -> is_Some (<[k := v]> m !! n).
Proof.
  intros Hn. destruct (decide (k = n)) as [-> | Hne];
    [rewrite lookup_insert_eq; eauto | now rewrite lookup_insert_ne by exact Hne].
Qed.

(** The loop of [cleanup], however it ends, keeps the fields of the
    zones and the names that have an event. *)
Lemma cleanup_zones_frame zs : forall c,
  map persisted_fields (zones (outcome_state (controller.cleanup_zones zs c)))
  = map persisted_fields (zones c)
  /\ (forall n, is_Some (stop_events c !! n) ->
        is_Some (stop_events (outcome_state (controller.cleanup_zones zs c)) !! n))
  /\ schedule_file (outcome_state (controller.cleanup_zones zs c)) = schedule_file c
  /\ global_schedule_enabled (outcome_state (controller.cleanup_zones zs c))
     = global_schedule_enabled c.
Proof.
  induction zs as [|a rest IH]; intros c; simpl.
  - auto.
  - destruct (stop_events c !! name a) eqn:Ha; simpl; [|auto].
    match goal with |- context [controller.cleanup_zones rest ?c2] =>
      destruct (IH c2) as (Hf & Hs & Hfile & Hg)
    end.
    destruct (active a); simpl in *; repeat split; try assumption.
    + now rewrite Hf, map_fields_set_active.
    + intros n Hn. now apply Hs, insert_present.
    + intros n Hn. now apply Hs, insert_present.
Qed.

Lemma kept_ext c c' :
  zones c' = zones c ->
  stop_events c' = stop_events c ->
  schedule_file c' = schedule_file c ->
  global_schedule_enabled c' = global_schedule_enabled c ->
  kept c -> kept c'.
Proof.
  intros Hz He Hf Hg Hk.
  eapply kept_frame;
    [exact Hk | congruence | intros n Hn; now rewrite He
    | congruence | congruence].
Qed.

Lemma kept_threads ts c : kept c -> kept (set_threads ts c).
Proof. intros Hk. exact Hk. Qed.

Lemma run_zone_enter_kept r c : kept c -> kept (snd (run_zone_enter r c)).
Proof.
  intros Hk. unfold run_zone_enter. simpl.
  assert (Hstart : kept (start_zone (r_zone r) c)).
  { eapply kept_frame; [exact Hk | simpl | simpl; auto | reflexivity | reflexivity].
    apply map_fields_set_active. }
  destruct (stop_events c !! name (r_zone r)) as [[|]|];
    try destruct (TIMEOUT_MAX <? r_duration r * 60); exact Hstart.
Qed.

Lemma run_zone_exit_kept r c : kept c -> kept (snd (run_zone_exit r c)).
Proof.
  intros Hk. unfold run_zone_exit. simpl.
  destruct (stop_events c !! name (r_zone r)); simpl;
    (eapply kept_frame; [exact Hk | simpl | simpl | reflexivity | reflexivity]);
    try apply map_fields_set_active; auto.
  intros n Hn. now apply insert_present.
Qed.

Lemma thread_step_kept i w c c' :
  thread_step i w c = Some c' -> kept c -> kept c'.
Proof.
  unfold thread_step. intros Hstep Hk.
  destruct (threads c !! i) as [r|]; [|discriminate].
  destruct (r_pc r); try discriminate.
  - pose proof (run_zone_enter_kept r c Hk) as He.
    destruct (run_zone_enter r c) as [pc c1]. injection Hstep as <-.
    now apply kept_threads.
  - destruct (wait_returns w r c); [|discriminate].
    pose proof (run_zone_exit_kept r c Hk) as He.
    destruct (run_zone_exit r c) as [pc c1]. injection Hstep as <-.
    now apply kept_threads.
  - destruct (wait_returns w r c); [|discriminate].
    pose proof (run_zone_exit_kept r c Hk) as He.
    destruct (run_zone_exit r c) as [pc c1]. injection Hstep as <-.
    now apply kept_threads.
Qed.

Lemma post_zones_kept m c : kept c -> kept (snd (post_zones m c)).
Proof.
  intros Hk. unfold post_zones, create_zone.
  destruct (ZoneModel_valid m) eqn:Hv; [|exact Hk].
  destruct (zone_exists m (zones c)) eqn:Hex; [exact Hk|].
  unfold ZoneModel_valid in Hv. apply andb_true_iff in Hv as [_ Hs].
  apply ScheduleModel_valid_spec in Hs as (_ & Hp & _).
  destruct (start_time_pattern_parses _ Hp) as (t & Ht & Hvt).
  unfold add_zone, new_schedule. rewrite Ht. simpl.
  destruct Hk as ((Hnames & Hpins & Hev) & _ & Hvalid).
  pose proof (zone_exists_false m _ Hex) as Hfree.
  apply kept_saved.
  - split; [|split]; simpl.
    + rewrite map_app. apply NoDup_snoc; [exact Hnames|].
      rewrite in_map_iff. intros (z & Hn & Hin). now destruct (Hfree z Hin).
    + rewrite map_app. apply NoDup_snoc; [exact Hpins|].
      rewrite in_map_iff. intros (z & Hn & Hin). now destruct (Hfree z Hin).
    + intros z Hz. apply in_app_iff in Hz as [Hz | [<- | []]].
      * now apply insert_present, Hev.
      * simpl. rewrite lookup_insert_eq. eauto.
  - unfold valid_times. simpl. apply Forall_app. split; [exact Hvalid|].
    constructor; [exact Hvt | constructor].
Qed.

Lemma remove_zone_kept zone_name c :
  kept c -> kept (snd (remove_zone zone_name c)).
Proof.
  intros Hk. unfold remove_zone.
  destruct (find_zone_index zone_name (zones c) 0) as [[i zone]|] eqn:Hfind;
    [|exact Hk].
  destruct (find_zone_index_spec _ _ _ _ _ Hfind) as (j & Hi & Hj & Hn & Hgone).
  simpl in Hi. subst j.
  destruct Hk as ((Hnames & Hpins & Hev) & _ & Hvalid).
  assert (Hzone : In zone (zones c))
    by (apply list_elem_of_In; eapply list_elem_of_lookup_2, Hj).
  destruct (Hev zone Hzone) as [ev Hevz]. rewrite Hn in Hevz.
  assert (Hrest : forall zs' ev',
            map persisted_fields zs' = map persisted_fields (zones c) ->
            (forall n, is_Some (stop_events c !! n) -> is_Some (ev' !! n)) ->
            kept (save_schedule
                    (set_stop_events (delete zone_name ev')
                       (set_zones (delete i zs') c)))).
  { intros zs' ev' Hf Hsome.
    destruct (same_fields _ _ Hf) as (Hsn & Hsp & _ & Hsv).
    apply kept_saved.
    - split; [|split]; simpl.
      + rewrite map_delete, Hsn. now apply NoDup_delete.
      + rewrite map_delete, Hsp. now apply NoDup_delete.
      + intros z Hz.
        assert (Hname : In (name z) (map name (delete i (zones c)))).
        { rewrite map_delete, <- Hsn, <- map_delete. now apply in_map. }
        assert (Hne : zone_name <> name z).
        { intros ->. now apply Hgone. }
        rewrite lookup_delete_ne by exact Hne. apply Hsome.
        apply in_map_iff in Hname as (z0 & <- & Hz0).
        apply Hev. eapply In_delete, Hz0.
    - unfold valid_times. simpl. apply Forall_delete. now apply Hsv. }
  unfold signal_and_stop.
  destruct (active zone).
  - rewrite Hevz. simpl. rewrite lookup_insert_eq.
    eapply kept_ext;
      [| | | | apply (Hrest (set_active (zid zone) false (zones c))
                       (<[zone_name := true]> (stop_events c)));
               [apply map_fields_set_active
               | intros n Hs; now apply insert_present]];
      reflexivity.
  - simpl. rewrite Hevz.
    eapply kept_ext;
      [| | | | apply (Hrest (zones c) (stop_events c)); auto];
      reflexivity.
Qed.

Lemma insert_kept i zone y c :
  zones c !! i = Some zone ->
  name y = name zone -> gpio_pin y = gpio_pin zone ->
  valid_time (start_time (schedule y)) ->
  kept c ->
  kept (save_schedule (set_zones (<[i := y]> (zones c)) c)).
Proof.
  intros Hi Hn Hp Hv ((Hnames & Hpins & Hev) & _ & Hvalid).
  apply kept_saved.
  - split; [|split]; simpl.
    + now rewrite (map_insert_same name _ _ _ _ Hi Hn).
    + now rewrite (map_insert_same gpio_pin _ _ _ _ Hi Hp).
    + intros z Hz.
      assert (Hin : In (name z) (map name (zones c))).
      { rewrite <- (map_insert_same name _ _ _ _ Hi Hn). now apply in_map. }
      apply in_map_iff in Hin as (z0 & <- & Hz0). now apply Hev.
  - unfold valid_times. simpl. now apply Forall_insert.
Qed.

Lemma toggle_zone_kept b zone_name c :
  kept c ->
  kept (match find_zone_index zone_name (zones c) 0%nat with
        | None => c
        | Some (i, zone) =>
            save_schedule
              (set_zones
                 (<[i := with_schedule (with_enabled b (schedule zone)) zone]>
                    (zones c)) c)
        end).
Proof.
  intros Hk.
  destruct (find_zone_index zone_name (zones c) 0) as [[i zone]|] eqn:Hfind;
    [|exact Hk].
  destruct (find_zone_index_spec _ _ _ _ _ Hfind) as (j & Hi & Hj & _).
  simpl in Hi. subst j.
  apply (insert_kept _ zone); try reflexivity; try assumption.
  destruct Hk as (_ & _ & Hvalid). simpl. unfold valid_times in Hvalid.
  rewrite List.Forall_forall in Hvalid. apply Hvalid.
  apply list_elem_of_In. eapply list_elem_of_lookup_2, Hj.
Qed.

Lemma put_schedule_kept zone_name m c :
  kept c -> kept (snd (api_server.put_schedule zone_name m c)).
Proof.
  intros Hk. unfold api_server.put_schedule, api_server.update_zone_schedule.
  destruct (ScheduleModel_valid (api_server.zu_schedule m)) eqn:Hv; [|exact Hk].
  destruct (negb (api_server.zone_listed zone_name c)); [exact Hk|].
  apply ScheduleModel_valid_spec in Hv as (_ & Hp & _).
  destruct (start_time_pattern_parses _ Hp) as (t & Ht & Hvt).
  unfold controller.update_zone_schedule, new_schedule. rewrite Ht.
  destruct (find_zone_index zone_name (zones c) 0) as [[i zone]|] eqn:Hfind;
    [|exact Hk].
  destruct (find_zone_index_spec _ _ _ _ _ Hfind) as (j & Hi & Hj & _).
  simpl in Hi. subst j. simpl.
  now apply (insert_kept _ zone).
Qed.

Lemma cleanup_kept c c' :
  controller.cleanup c = Returned c' \/ controller.cleanup c = Raised c' ->
  kept c -> kept c'.
Proof.
  unfold controller.cleanup. intros Hc Hk.
  destruct (cleanup_zones_frame (zones c) (set_is_running false c))
    as (Hf & Hs & Hfile & Hg).
  destruct (controller.cleanup_zones (zones c) (set_is_running false c))
    as [c1 | c1]; simpl in *;
    destruct Hc as [Hc | Hc]; try discriminate Hc; injection Hc as <-;
    (eapply kept_frame; [exact Hk | | | |]); simpl; assumption.
Qed.

Lemma check_and_run_frame now c :
  zones (check_and_run now c) = zones c
  /\ stop_events (check_and_run now c) = stop_events c
  /\ schedule_file (check_and_run now c) = schedule_file c
  /\ global_schedule_enabled (check_and_run now c) = global_schedule_enabled c.
Proof.
  unfold check_and_run.
  destruct (global_schedule_enabled c) eqn:Hg; simpl; [|auto].
  rewrite check_zones_spec. simpl. auto.
Qed.

Lemma step_kept c c' : step c c' -> kept c -> kept c'.
Proof.
  intros Hstep Hk. destruct Hstep as [now c _ | m c | n c | n m c | n c | i w c c' Hs].
  - destruct (check_and_run_frame now c) as (Hz & He & Hf & Hg).
    eapply kept_frame;
      [exact Hk | congruence | intros k Hk'; now rewrite He
      | congruence | congruence].
  - now apply post_zones_kept.
  - now apply remove_zone_kept.
  - unfold post_run, run_zone_manually.
    destruct (ManualRunModel_valid m); [|exact Hk].
    destruct (find_zone n (zones c)) as [z|]; [|exact Hk].
    destruct (active z); [exact Hk|].
    eapply kept_frame; [exact Hk | | | |]; simpl; auto.
  - unfold stop_zone_manually.
    destruct (find_zone n (zones c)) as [z|]; [|exact Hk].
    destruct (negb (active z)); [exact Hk|].
    destruct (stop_events c !! n); [|exact Hk].
    eapply kept_frame; [exact Hk | | | |]; simpl; auto.
    intros k Hk'. now apply insert_present.
  - eapply thread_step_kept; eassumption.
Qed.

Lemma request_step_kept c c' : request_step c c' -> kept c -> kept c'.
Proof.
  intros Hstep Hk.
  destruct Hstep as [c c' Hs | n m c | n c | n c | n c | c | c
                     | c c' Hc | c c' Hc].
  - eapply step_kept; eassumption.
  - now apply put_schedule_kept.
  - unfold api_server.delete_zone.
    pose proof (remove_zone_kept n c Hk) as Hr.
    now destruct (remove_zone n c) as [[[|]|] c'].
  - unfold api_server.enable_zone_schedule.
    destruct (negb (api_server.zone_listed n c)); [exact Hk|].
    now apply toggle_zone_kept.
  - unfold api_server.disable_zone_schedule.
    destruct (negb (api_server.zone_listed n c)); [exact Hk|].
    now apply toggle_zone_kept.
  - destruct Hk as (Hw & _ & Hv). now apply kept_saved.
  - destruct Hk as (Hw & _ & Hv). now apply kept_saved.
  - eapply cleanup_kept; eauto.
  - eapply cleanup_kept; eauto.
Qed.

Lemma requests_keep c0 c : rtc request_step c0 c -> kept c0 -> kept c.
Proof.
  induction 1 as [|c0 c1 c Hstep _ IH]; [auto|].
  intros Hk. apply IH. eapply request_step_kept; eassumption.
Qed.

Lemma first_start_kept file c0 :
  file = Missing \/ file = Corrupt ->
  SprinklerController_init file = Some c0 -> kept c0.
Proof.
  intros Hfile Hinit.
  assert (Hc0 : c0 = s_boot).
  { pose proof s_boot_init as Hb.
    destruct Hfile as [-> | ->]; [congruence|].
    assert (SprinklerController_init Corrupt = SprinklerController_init Missing)
      by reflexivity.
    congruence. }
  subst c0. split; [split; [|split]|split].
  - vm_compute. repeat constructor; simpl; intuition discriminate.
  - vm_compute. repeat constructor; simpl; intuition discriminate.
  - intros z Hz. vm_compute in Hz.
    destruct Hz as [<- | [<- | []]]; exists false; vm_compute; reflexivity.
  - vm_compute. reflexivity.
  - unfold valid_times. vm_compute zones.
    repeat constructor; simpl; lia.
Qed.

Lemma s_running_by_requests : reachable_by_requests Missing s_running.
Proof.
  exists s_boot. split; [apply s_boot_init|].
  eapply rtc_l;
    [apply request_core, (step_post_run "Front Yard" five_minutes)|].
  eapply rtc_l;
    [apply request_core, (step_thread 0 Elapsed); vm_compute; reflexivity|].
  vm_compute. apply rtc_refl.
Qed.

(** X17. After a first start without a usable schedule file, whatever
    requests, ticks, run threads and shutdowns follow, the names of the
    listed zones stay distinct, so do their pins, every listed zone has
    an event, and the schedule file holds exactly the zones and the
    global flag that are in memory. *)
Theorem requests_keep_names_pins_events_file
    (file : store) (c : SprinklerController) :
  file = Missing \/ file = Corrupt ->
  reachable_by_requests file c ->
  List.NoDup (map name (zones c))
  /\ List.NoDup (map gpio_pin (zones c))
  /\ (forall z, In z (zones c) -> is_Some (stop_events c !! name z))
  /\ schedule_file c =
       Doc (mk_doc (Some (global_schedule_enabled c))
              (Some (map Zone_to_dict (zones c)))).
Proof.
  intros Hfile (c0 & Hinit & Hsteps).
  destruct (requests_keep _ _ Hsteps (first_start_kept _ _ Hfile Hinit))
    as ((Hn & Hp & Hev) & Hsync & _).
  auto.
Qed.

Lemma requests_keep_names_pins_events_file_witness :
  (Missing = Missing \/ Missing = Corrupt)
  /\ reachable_by_requests Missing s_running
  /\ List.NoDup (map name (zones s_running))
  /\ List.NoDup (map gpio_pin (zones s_running)).
Proof.
  assert (Hf : Missing = Missing \/ Missing = Corrupt) by (left; reflexivity).
  split; [exact Hf|]. split; [exact s_running_by_requests|].
  destruct (requests_keep_names_pins_events_file Missing s_running Hf
              s_running_by_requests) as (Hn & Hp & _).
  auto.
Defined.

(** X18. After a first start without a usable schedule file, a restart
    at any later moment loses nothing but the runs: loading the
    schedule file gives the zones in memory with the same name, pin,
    days, start time, duration and enabled flag, and the same global
    flag, all of them inactive. *)
Theorem restart_loses_only_runs (file : store) (c : SprinklerController) :
  file = Missing \/ file = Corrupt ->
  reachable_by_requests file c ->
  exists c',
    load_schedule c = Some c'
    /\ map persisted_fields (zones c') = map persisted_fields (zones c)
    /\ global_schedule_enabled c' = global_schedule_enabled c
    /\ Forall (fun z => active z = false) (zones c').
Proof.
  intros Hfile (c0 & Hinit & Hsteps).
  destruct (requests_keep _ _ Hsteps (first_start_kept _ _ Hfile Hinit))
    as (_ & Hsync & Hv).
  destruct (saved_reloads c Hsync Hv) as (c' & Hl & Hf & Hg & _ & Ha).
  exists c'. auto.
Qed.

Lemma restart_loses_only_runs_witness :
  (Missing = Missing \/ Missing = Corrupt)
  /\ reachable_by_requests Missing s_running
  /\ map active (zones s_running) = [true; false]
  /\ exists c',
       load_schedule s_running = Some c'
       /\ map persisted_fields (zones c') = map persisted_fields (zones s_running)
       /\ Forall (fun z => active z = false) (zones c').
Proof.
  assert (Hf : Missing = Missing \/ Missing = Corrupt) by (left; reflexivity).
  split; [exact Hf|]. split; [exact s_running_by_requests|].
  split; [vm_compute; reflexivity|].
  destruct (restart_loses_only_runs Missing s_running Hf s_running_by_requests)
    as (c' & Hl & Hfields & _ & Ha).
  exists c'. auto.
Defined.

Lemma remove_zone_listed zone_name c :
  In zone_name (map name (zones c)) ->
  is_Some (stop_events c !! zone_name) ->
  fst (remove_zone zone_name c) = Some true.
Proof.
  intros Hin [ev Hev]. unfold remove_zone.
  destruct (find_zone_index zone_name (zones c) 0) as [[i zone]|] eqn:Hfind.
  2:{ apply find_zone_index_none in Hfind. contradiction. }
  unfold signal_and_stop.
  destruct (active zone); rewrite ?Hev; simpl;
    rewrite ?lookup_insert_eq, ?Hev; reflexivity.
Qed.

(** X19. After a first start without a usable schedule file, and
    whatever followed, no request meets a zone without its event: a
    stop request is never answered 500, deleting a listed zone is
    answered 200, and [cleanup] returns without raising. *)
Theorem requests_never_miss_an_event (file : store) (c : SprinklerController) :
  file = Missing \/ file = Corrupt ->
  reachable_by_requests file c ->
  (forall zone_name, fst (stop_zone_manually zone_name c) <> ServerError_500)
  /\ (forall zone_name,
        In zone_name (map name (zones c)) ->
        fst (api_server.delete_zone zone_name c) = OK_200)
  /\ exists c', controller.cleanup c = Returned c'.
Proof.
  intros Hfile (c0 & Hinit & Hsteps).
  destruct (requests_keep _ _ Hsteps (first_start_kept _ _ Hfile Hinit))
    as ((_ & _ & Hev) & _ & _).
  assert (Hname : forall n, In n (map name (zones c)) ->
                            is_Some (stop_events c !! n)).
  { intros n Hn. apply in_map_iff in Hn as (z & <- & Hz). now apply Hev. }
  split; [|split].
  - intros n. unfold stop_zone_manually.
    destruct (find_zone n (zones c)) as [z|] eqn:Hf; [|discriminate].
    destruct (negb (active z)); [discriminate|].
    destruct (Hname n) as [ev ->]; [|discriminate].
    rewrite <- (find_zone_name _ _ _ Hf). apply in_map.
    unfold find_zone in Hf. now apply find_some in Hf as [Hin _].
  - intros n Hn. unfold api_server.delete_zone.
    pose proof (remove_zone_listed n c Hn (Hname n Hn)) as Hr.
    destruct (remove_zone n c) as [[[|]|] c']; simpl in Hr;
      try discriminate Hr; reflexivity.
  - unfold controller.cleanup.
    destruct (cleanup_zones_returns (zones c) (set_is_running false c) Hev)
      as (c1 & -> & _).
    eauto.
Qed.

Lemma requests_never_miss_an_event_witness :
  (Missing = Missing \/ Missing = Corrupt)
  /\ reachable_by_requests Missing s_running
  /\ fst (api_server.delete_zone "Front Yard" s_running) = OK_200.
Proof.
  assert (Hf : Missing = Missing \/ Missing = Corrupt) by (left; reflexivity).
  split; [exact Hf|]. split; [exact s_running_by_requests|].
  destruct (requests_never_miss_an_event Missing s_running Hf
              s_running_by_requests) as (_ & Hdel & _).
  apply Hdel. vm_compute. left. reflexivity.
Defined.

(** ** A scheduled run from tick to entry *)

(** X20. A tick with the global schedule on hands out a run, for the
    duration of the schedule, for a listed zone that is enabled, idle
    and due. When that run enters, its timeout being one the lock
    accepts, the pin of the zone goes high and the flag of every listed
    zone object of that identity is set; a tick made in the state that
    the entry leaves, at whatever time, hands out no run for the zone. *)
Theorem scheduled_run_enters_then_tick_skips
    (now : datetime) (z : Zone) (i : nat) (c : SprinklerController) :
  global_schedule_enabled c = true ->
  In z (zones c) ->
  enabled (schedule z) = true ->
  active z = false ->
  matches (schedule z) now = true ->
  is_Some (stop_events c !! name z) ->
  duration_minutes (schedule z) * 60 <= TIMEOUT_MAX ->
  In (mk_run z (duration_minutes (schedule z)) Dispatched)
    (threads (check_and_run now c))
  /\ (threads (check_and_run now c) !! i
      = Some (mk_run z (duration_minutes (schedule z)) Dispatched) ->
      exists c1,
        thread_step i Elapsed (check_and_run now c) = Some c1
        /\ threads c1 !! i
           = Some (mk_run z (duration_minutes (schedule z)) Waiting)
        /\ gpio c1 !! gpio_pin z = Some HIGH
        /\ (forall z', In z' (zones c1) -> zid z' = zid z -> active z' = true)
        /\ forall now', exists new,
             threads (check_and_run now' c1) = (threads c1 ++ new)%list
             /\ Forall (fun r => zid (r_zone r) <> zid z) new).
Proof.
  intros Hg Hin Hen Ha Hm [ev Hev] Hd. apply Z.ltb_ge in Hd.
  assert (Htick : check_and_run now c
                  = set_threads
                      (threads c
                         ++ map scheduled_run (List.filter (due now) (zones c)))
                      c).
  { unfold check_and_run. rewrite Hg. simpl. apply check_zones_spec. }
  rewrite Htick. split.
  - simpl. apply in_app_iff. right.
    apply (in_map scheduled_run _ z), filter_In. split; [exact Hin|].
    unfold due. now rewrite Hen, Ha, Hm.
  - intros Hi. unfold thread_step. rewrite Hi. simpl.
    unfold run_zone_enter. simpl. rewrite Hev, Hd.
    assert (Hskip : forall ts now', exists new,
              threads (check_and_run now'
                         (set_threads ts (start_zone z c)))
              = (ts ++ new)%list
              /\ Forall (fun r => zid (r_zone r) <> zid z) new).
    { intros ts now'. unfold check_and_run. simpl. rewrite Hg. simpl.
      rewrite check_zones_spec. simpl. eexists. split; [reflexivity|].
      apply List.Forall_forall. intros r Hr.
      apply in_map_iff in Hr as (z' & <- & Hz').
      apply filter_In in Hz' as [Hz' Hdue]. simpl. intros Hid.
      unfold due in Hdue.
      rewrite (set_active_flag _ _ _ _ Hz' Hid) in Hdue.
      simpl in Hdue. now rewrite andb_false_r in Hdue. }
    destruct ev; simpl;
      (eexists; split; [reflexivity|]; simpl;
       split; [apply list_lookup_insert_eq; eapply lookup_lt_Some, Hi|];
       split; [apply lookup_insert_eq|];
       split; [intros z' Hz' Hid; eapply set_active_flag; eassumption|];
       intros now'; apply Hskip).
Qed.

(** The front yard on a Monday at 06:00. *)
Lemma scheduled_run_enters_then_tick_skips_witness :
  let monday_six := mk_datetime 0 (mk_time 6 0) in
  let z := mk_zone 0 "Front Yard" 17
             (mk_schedule [0; 2; 4] (mk_time 6 0) 20 true) false in
  In z (zones s_boot)
  /\ matches (schedule z) monday_six = true
  /\ threads (check_and_run monday_six s_boot) = [mk_run z 20 Dispatched]
  /\ exists c1,
       thread_step 0 Elapsed (check_and_run monday_six s_boot) = Some c1
       /\ gpio c1 !! 17 = Some HIGH
       /\ exists new,
            threads (check_and_run monday_six c1) = (threads c1 ++ new)%list
            /\ Forall (fun r => zid (r_zone r) <> 0%nat) new.
Proof.
  intros monday_six z.
  assert (Hin : In z (zones s_boot)) by (vm_compute; left; reflexivity).
  assert (Hm : matches (schedule z) monday_six = true) by reflexivity.
  assert (He : is_Some (stop_events s_boot !! name z))
    by (exists false; vm_compute; reflexivity).
  assert (Hd : duration_minutes (schedule z) * 60 <= TIMEOUT_MAX)
    by (vm_compute; discriminate).
  split; [exact Hin|]. split; [exact Hm|].
  split; [vm_compute; reflexivity|].
  destruct (scheduled_run_enters_then_tick_skips monday_six z 0 s_boot
              eq_refl Hin eq_refl eq_refl Hm He Hd) as (_ & Henter).
  destruct Henter as (c1 & Hstep & _ & Hhigh & _ & Hlater);
    [vm_compute; reflexivity|].
  exists c1. split; [exact Hstep|]. split; [exact Hhigh|].
  exact (Hlater monday_six).
Defined.
